(** * FIFO project scripts: log analysis, coverage and synthesis reports

    A shallow embedding of the Python scripts under [scripts/]:
    [analyze_performance.py], [check_coverage.py], [analyze_synthesis.py],
    [synthesis_summary.py] and the log reader of [plot_results.py].

    Conventions of the embedding.
    - A Python [str] is a Rocq [string]; a character is a code point below
      256 (Rocq's 8-bit [ascii]), so the texts covered are the Latin-1 ones.
      Character classes ([\s], [\d], [str.lower], [str.strip]) are the ones
      Python uses on those code points.
    - A Python [int] is a [Z] (unbounded, as in Python).  The interpreter's
      optional cap on the number of digits of an int/str conversion is not
      part of the model.
    - A Python [float] is an IEEE-754 binary64 value, [spec_float] with
      precision 53 and maximal exponent 1024, all roundings to nearest even.
    - An exception is the [Raise] branch of [result].
    - A [dict] is an association list in insertion order with unique keys.
    - The file system is a function from paths to optional file contents;
      [print] appends to a list of output lines. *)

From Stdlib Require Import ZArith List String Ascii Bool Lia.
From Stdlib Require Import DecimalString SpecFloat.
Import ListNotations.

Local Open Scope string_scope.
Local Open Scope Z_scope.

(** Concatenation of lists of lines, kept apart from that of strings. *)
Notation "l1 +++ l2" := (@List.app string l1 l2)
  (at level 65, right associativity).

(** ** The Python run time used by the scripts *)

Module Py.

Inductive exn : Type :=
| ZeroDivisionError
| ValueError
| OverflowError.

Inductive result (A : Type) : Type :=
| Ok (a : A)
| Raise (e : exn).

Arguments Ok {A} a.
Arguments Raise {A} e.

Definition bind {A B : Type} (c : result A) (k : A -> result B) : result B :=
  match c with
  | Ok a => k a
  | Raise e => Raise e
  end.

Notation "x <- c ;; k" := (bind c (fun x => k))
  (at level 61, c at next level, right associativity).

(** *** Characters *)

Definition ord (c : ascii) : N := N_of_ascii c.

Definition newline : ascii := ascii_of_N 10.

(** [\d] and [str.isdigit] below code point 256: the ASCII digits. *)
Definition isdigit (c : ascii) : bool :=
  ((48 <=? ord c) && (ord c <=? 57))%N.

(** [\s] and [str.isspace] below code point 256: tab to carriage return,
    the four separators 28..31, space, NEL and the no-break space. *)
Definition isspace (c : ascii) : bool :=
  (((9 <=? ord c) && (ord c <=? 13))
   || ((28 <=? ord c) && (ord c <=? 32))
   || (ord c =? 133) || (ord c =? 160))%N.

(** The class [[\d.]]. *)
Definition isdigit_or_dot (c : ascii) : bool :=
  isdigit c || (ord c =? 46)%N.

Definition isdot (c : ascii) : bool := (ord c =? 46)%N.

(** [str.lower] on one code point: A-Z and the Latin-1 capitals. *)
Definition lower_char (c : ascii) : ascii :=
  if (((65 <=? ord c) && (ord c <=? 90))
      || ((192 <=? ord c) && (ord c <=? 214))
      || ((216 <=? ord c) && (ord c <=? 222)))%N
  then ascii_of_N (ord c + 32)
  else c.

(** *** Strings *)

Fixpoint lower (s : string) : string :=
  match s with
  | EmptyString => EmptyString
  | String c r => String (lower_char c) (lower r)
  end.

(** [s.startswith(p)]. *)
Definition startswith (p s : string) : bool := String.prefix p s.

(** [needle in hay]. *)
Fixpoint contains (needle hay : string) : bool :=
  String.prefix needle hay
  || match hay with
     | EmptyString => false
     | String _ r => contains needle r
     end.

(** [any(x in s for x in xs)]. *)
Definition contains_any (xs : list string) (s : string) : bool :=
  existsb (fun x => contains x s) xs.

(** [s.replace(old, new)] for a non-empty [old]: occurrences are replaced
    from left to right and do not overlap.  [skip] counts the characters
    of an occurrence that are still to be dropped. *)
Fixpoint replace_from (old new : string) (skip : nat) (s : string) : string :=
  match s with
  | EmptyString => EmptyString
  | String c r =>
      match skip with
      | S k => replace_from old new k r
      | O =>
          if String.prefix old s
          then new ++ replace_from old new (Nat.pred (String.length old)) r
          else String c (replace_from old new O r)
      end
  end.

Definition replace (old new s : string) : string :=
  replace_from old new O s.

Fixpoint lstrip (s : string) : string :=
  match s with
  | EmptyString => EmptyString
  | String c r => if isspace c then lstrip r else s
  end.

Fixpoint rstrip (s : string) : string :=
  match s with
  | EmptyString => EmptyString
  | String c r =>
      match rstrip r with
      | EmptyString => if isspace c then EmptyString else String c EmptyString
      | r' => String c r'
      end
  end.

Definition strip (s : string) : string := rstrip (lstrip s).

(** [s * n]. *)
Fixpoint repeat_str (s : string) (n : nat) : string :=
  match n with
  | O => EmptyString
  | S k => s ++ repeat_str s k
  end.

(** [sep.join(xs)]. *)
Definition join (sep : string) (xs : list string) : string :=
  String.concat sep xs.

(** *** Integers *)

Definition digit_val (c : ascii) : Z := Z.of_N (ord c) - 48.

Fixpoint all_chars (p : ascii -> bool) (s : string) : bool :=
  match s with
  | EmptyString => true
  | String c r => p c && all_chars p r
  end.

Fixpoint digits_value (acc : Z) (s : string) : Z :=
  match s with
  | EmptyString => acc
  | String c r => digits_value (10 * acc + digit_val c) r
  end.

(** [int(s)] on the strings the scripts hand to it, runs of decimal
    digits; anything else is reported as a [ValueError]. *)
Definition int (s : string) : result Z :=
  match s with
  | EmptyString => Raise ValueError
  | _ => if all_chars isdigit s then Ok (digits_value 0 s) else Raise ValueError
  end.

(** [a // b] on ints: floor division, an error on a zero divisor. *)
Definition floordiv (a b : Z) : result Z :=
  if b =? 0 then Raise ZeroDivisionError else Ok (a / b).

(** [str(n)] and [f"{n}"]. *)
Definition str (n : Z) : string := NilZero.string_of_int (Z.to_int n).

(** [f"{s:>w}"]: right-justify in a field of width [w]. *)
Definition rjust (w : nat) (s : string) : string :=
  repeat_str " " (w - String.length s) ++ s.

(** [f"{n:5d}"]. *)
Definition fmt_5d (n : Z) : string := rjust 5 (str n).

(** *** Floats *)

Definition prec : Z := 53.
Definition emax : Z := 1024.

Definition float : Type := spec_float.

Definition zero : float := S754_zero false.

(** The quotient [p / q] of two integers, [0 <= p] and [0 < q], rounded
    once to the nearest binary64 value. *)
Definition round_ratio (neg : bool) (p q : Z) : float :=
  match p with
  | Z0 => S754_zero neg
  | _ =>
      let '(m, e, l) := SFdiv_core_binary prec emax p 0 q 0 in
      binary_round_aux prec emax neg m e l
  end.

(** [a / b] on ints (true division): the correctly rounded quotient. *)
Definition truediv (a b : Z) : result float :=
  if b =? 0 then Raise ZeroDivisionError
  else
    match round_ratio (xorb (a <? 0) (b <? 0)) (Z.abs a) (Z.abs b) with
    | S754_infinity _ => Raise OverflowError
    | f => Ok f
    end.

(** The conversion of an int operand to float in mixed arithmetic. *)
Definition float_of_int (n : Z) : result float :=
  match round_ratio (n <? 0) (Z.abs n) 1 with
  | S754_infinity _ => Raise OverflowError
  | f => Ok f
  end.

(** [x * n] for a float [x] and an int [n]. *)
Definition mul_int (x : float) (n : Z) : result float :=
  bind (float_of_int n) (fun y => Ok (SFmul prec emax x y)).

(** [x > 0] for a float [x]. *)
Definition gt_zero (x : float) : bool := SFltb zero x.

(** Splits a text at its first dot. *)
Fixpoint split_dot (s : string) : string * option string :=
  match s with
  | EmptyString => (EmptyString, None)
  | String c r =>
      if isdot c then (EmptyString, Some r)
      else let '(a, b) := split_dot r in (String c a, b)
  end.

(** [float(s)] on the strings the scripts hand to it, texts made of
    decimal digits and dots: an integer part, at most one dot, a
    fraction, with at least one digit in all; the value is rounded once.
    Anything else is reported as a [ValueError]. *)
Definition float_of_str (s : string) : result float :=
  let '(ip, rest) := split_dot s in
  let fp := match rest with Some f => f | None => EmptyString end in
  if all_chars isdigit ip && all_chars isdigit fp
     && negb (Nat.eqb (String.length ip + String.length fp) 0)
  then Ok (round_ratio false (digits_value 0 (ip ++ fp))
                       (10 ^ Z.of_nat (String.length fp)))
  else Raise ValueError.

(** [n / d] rounded to the nearest integer, ties to even. *)
Definition div_half_even (n d : Z) : Z :=
  let q := n / d in
  match (2 * (n mod d)) ?= d with
  | Lt => q
  | Gt => q + 1
  | Eq => if Z.even q then q else q + 1
  end.

(** [s.zfill(w)] for a run of digits. *)
Definition zfill (w : nat) (s : string) : string :=
  repeat_str "0" (w - String.length s) ++ s.

(** [f"{s:<w}"]: left-justify in a field of width [w]. *)
Definition ljust (w : nat) (s : string) : string :=
  s ++ repeat_str " " (w - String.length s).

(** [f"{n:+d}"]: the sign is always written. *)
Definition fmt_plus_d (n : Z) : string :=
  if n <? 0 then str n else "+" ++ str n.

(** The fixed-point presentation [f] of a float with [d >= 1] decimals:
    the exact binary value rounded once to [d] decimals, ties to even.
    [plus] is the [+] flag. *)
Definition fmt_fixed (plus : bool) (d : nat) (x : float) : string :=
  let sign (s : bool) := if s then "-" else if plus then "+" else "" in
  match x with
  | S754_nan => (if plus then "+" else "") ++ "nan"
  | S754_infinity s => sign s ++ "inf"
  | S754_zero s => sign s ++ "0." ++ repeat_str "0" d
  | S754_finite s m e =>
      let unit := 10 ^ Z.of_nat d in
      let h := if 0 <=? e then Zpos m * unit * 2 ^ e
               else div_half_even (Zpos m * unit) (2 ^ (- e)) in
      sign s ++ str (h / unit) ++ "." ++ zfill d (str (h mod unit))
  end.

(** [f"{x:.2f}"]. *)
Definition fmt_2f (x : float) : string := fmt_fixed false 2 x.

(** A number that is an int on one path and a float on another. *)
Inductive num : Type :=
| Int (n : Z)
| Float (x : float).

(** [f"{v:+.1f}"] for an int or a float: an int is converted first. *)
Definition fmt_plus_1f (v : num) : result string :=
  match v with
  | Int n => x <- float_of_int n ;; Ok (fmt_fixed true 1 x)
  | Float x => Ok (fmt_fixed true 1 x)
  end.

(** *** Dictionaries *)

Definition dict (V : Type) : Type := list (string * V).

(** [d[k] = v]: an existing key keeps its place, a new key goes last. *)
Fixpoint dict_set {V : Type} (k : string) (v : V) (d : dict V) : dict V :=
  match d with
  | [] => [(k, v)]
  | (k', v') :: r =>
      if String.eqb k' k then (k', v) :: r else (k', v') :: dict_set k v r
  end.

(** [d.get(k)]; [k in d] is [dict_get k d] being [Some]. *)
Fixpoint dict_get {V : Type} (k : string) (d : dict V) : option V :=
  match d with
  | [] => None
  | (k', v') :: r => if String.eqb k' k then Some v' else dict_get k r
  end.

End Py.

Notation "x <- c ;; k" := (Py.bind c (fun x => k))
  (at level 61, c at next level, right associativity).

(** ** The regular expressions of the scripts

    Every pattern of the scripts is a sequence of literals and greedy runs
    over a character class whose complement contains the character that
    must follow the run, so giving back part of a run never helps and a
    match at a position is decided in one pass.  The only lazy group,
    [(.+?)] of the test-result pattern, is tried at increasing lengths. *)

Module Re.

Import Py.

(** The longest run of characters of a class at the head of a text, and
    what follows it. *)
Fixpoint span (p : ascii -> bool) (s : string) : string * string :=
  match s with
  | EmptyString => (EmptyString, EmptyString)
  | String c r =>
      if p c then let '(a, b) := span p r in (String c a, b)
      else (EmptyString, s)
  end.

(** A literal at the head of a text: what follows it. *)
Fixpoint eat (lit s : string) : option string :=
  match lit with
  | EmptyString => Some s
  | String c l =>
      match s with
      | EmptyString => None
      | String d r => if Ascii.eqb c d then eat l r else None
      end
  end.

(** [re.search]: the match at the leftmost position that has one. *)
Fixpoint search {A : Type} (m : string -> option A) (s : string) : option A :=
  match m s with
  | Some a => Some a
  | None =>
      match s with
      | EmptyString => None
      | String _ r => search m r
      end
  end.

(** [re.finditer] for a pattern that matches no empty text: the matches
    from left to right, each search resuming where the last match ended.
    A matcher yields its groups and the length of the match; [skip]
    counts the characters of the last match still to be passed. *)
Fixpoint finditer_from {A : Type} (m : string -> option (A * nat))
         (skip : nat) (s : string) : list A :=
  match s with
  | EmptyString => []
  | String _ r =>
      match skip with
      | S k => finditer_from m k r
      | O =>
          match m s with
          | Some (a, len) => a :: finditer_from m (Nat.pred len) r
          | None => finditer_from m O r
          end
      end
  end.

Definition finditer {A : Type} (m : string -> option (A * nat))
           (s : string) : list A :=
  finditer_from m O s.

(** [label\s*(\d+)] at the head of a text: group 1 and the rest. *)
Definition label_digits (label s : string) : option (string * string) :=
  match eat label s with
  | None => None
  | Some r =>
      let '(g, r') := span isdigit (snd (span isspace r)) in
      match g with
      | EmptyString => None
      | _ => Some (g, r')
      end
  end.

(** [Total Writes:\s*(\d+)]. *)
Definition total_writes (s : string) : option string :=
  option_map fst (label_digits "Total Writes:" s).

(** [Total Reads:\s*(\d+)]. *)
Definition total_reads (s : string) : option string :=
  option_map fst (label_digits "Total Reads:" s).

(** [Peak Occupancy:\s*(\d+)/(\d+)]: groups 1 and 2. *)
Definition peak_occupancy (s : string) : option (string * string) :=
  match label_digits "Peak Occupancy:" s with
  | None => None
  | Some (g1, r) =>
      match eat "/" r with
      | None => None
      | Some r' =>
          match fst (span isdigit r') with
          | EmptyString => None
          | g2 => Some (g1, g2)
          end
      end
  end.

(** [Throughput:\s*([\d.]+)\s*MB/s]. *)
Definition throughput (s : string) : option string :=
  match eat "Throughput:" s with
  | None => None
  | Some r =>
      let '(g, r') := span isdigit_or_dot (snd (span isspace r)) in
      match g with
      | EmptyString => None
      | _ =>
          match eat "MB/s" (snd (span isspace r')) with
          | None => None
          | Some _ => Some g
          end
      end
  end.

(** [Success Rate:\s*(\d+)%]. *)
Definition success_rate (s : string) : option string :=
  match label_digits "Success Rate:" s with
  | None => None
  | Some (g, r) =>
      match eat "%" r with
      | None => None
      | Some _ => Some g
      end
  end.

(** [\.+ (PASS|FAIL)] at the head of a text: the verdict and the length
    of the match. *)
Definition dots_verdict (s : string) : option (string * nat) :=
  let '(dots, r) := span isdot s in
  match dots with
  | EmptyString => None
  | _ =>
      match eat " " r with
      | None => None
      | Some r' =>
          if String.prefix "PASS" r' then Some ("PASS", (String.length dots + 5)%nat)
          else if String.prefix "FAIL" r' then Some ("FAIL", (String.length dots + 5)%nat)
          else None
      end
  end.

(** [(.+?)\.+ (PASS|FAIL)]: the shortest non-empty name, free of line
    breaks, that the dots and the verdict follow.  [acc] is the part of
    the name already passed. *)
Fixpoint name_verdict (acc s : string) : option (string * string * nat) :=
  match s with
  | EmptyString => None
  | String c r =>
      if Ascii.eqb c newline then None
      else
        let acc' := acc ++ String c EmptyString in
        match dots_verdict r with
        | Some (v, n) => Some (acc', v, (String.length acc' + n)%nat)
        | None => name_verdict acc' r
        end
  end.

(** [\[TEST (\d+)\] (.+?)\.+ (PASS|FAIL)] at the head of a text: the
    three groups and the length of the match. *)
Definition test_result (s : string)
  : option ((string * string * string) * nat) :=
  match eat "[TEST " s with
  | None => None
  | Some r =>
      let '(num, r1) := span isdigit r in
      match num with
      | EmptyString => None
      | _ =>
          match eat "] " r1 with
          | None => None
          | Some r2 =>
              match name_verdict EmptyString r2 with
              | None => None
              | Some (name, v, n) =>
                  Some ((num, name, v), (6 + String.length num + 2 + n)%nat)
              end
          end
      end
  end.

End Re.

(** ** The environment of a run *)

Module Env.

(** A path is its text. *)
Definition path : Type := string.

(** The files that exist, with their decoded contents. *)
Definition files : Type := path -> option string.

(** What a function does besides returning. *)
Inductive effect : Type :=
| Stdout (line : string)
| MakeParentDirs (file : path)
| WriteFile (file : path) (data : string).

Definition nl : string := String Py.newline EmptyString.

End Env.

(** ** analyze_performance.py *)

Module AnalyzePerformance.

Import Py Env.

Record TestResult : Type := {
  name : string;
  passed : bool;
  details : string
}.

Record PerformanceMetrics : Type := {
  total_writes : Z;
  total_reads : Z;
  peak_occupancy : Z;
  fifo_depth : Z;
  throughput_mbps : float;
  success_rate : float
}.

(** [PerformanceMetrics()]. *)
Definition default_metrics : PerformanceMetrics := {|
  total_writes := 0;
  total_reads := 0;
  peak_occupancy := 0;
  fifo_depth := 16;
  throughput_mbps := zero;
  success_rate := zero
|}.

Definition set_total_writes (v : Z) (m : PerformanceMetrics) :=
  {| total_writes := v; total_reads := total_reads m;
     peak_occupancy := peak_occupancy m; fifo_depth := fifo_depth m;
     throughput_mbps := throughput_mbps m; success_rate := success_rate m |}.

Definition set_total_reads (v : Z) (m : PerformanceMetrics) :=
  {| total_writes := total_writes m; total_reads := v;
     peak_occupancy := peak_occupancy m; fifo_depth := fifo_depth m;
     throughput_mbps := throughput_mbps m; success_rate := success_rate m |}.

Definition set_peak (p d : Z) (m : PerformanceMetrics) :=
  {| total_writes := total_writes m; total_reads := total_reads m;
     peak_occupancy := p; fifo_depth := d;
     throughput_mbps := throughput_mbps m; success_rate := success_rate m |}.

Definition set_throughput_mbps (v : float) (m : PerformanceMetrics) :=
  {| total_writes := total_writes m; total_reads := total_reads m;
     peak_occupancy := peak_occupancy m; fifo_depth := fifo_depth m;
     throughput_mbps := v; success_rate := success_rate m |}.

Definition set_success_rate (v : float) (m : PerformanceMetrics) :=
  {| total_writes := total_writes m; total_reads := total_reads m;
     peak_occupancy := peak_occupancy m; fifo_depth := fifo_depth m;
     throughput_mbps := throughput_mbps m; success_rate := v |}.

(** The loop over [re.finditer(test_pattern, content)]. *)
Fixpoint collect_tests (ms : list (string * string * string))
  : result (list TestResult) :=
  match ms with
  | [] => Ok []
  | (num, nm, verdict) :: r =>
      test_num <- int num ;;
      ts <- collect_tests r ;;
      Ok ({| name := strip nm;
             passed := String.eqb verdict "PASS";
             details := "" |} :: ts)
  end.

(** The five optional fields, each searched in the whole text. *)
Definition collect_metrics (content : string) : result PerformanceMetrics :=
  let metrics := default_metrics in
  metrics <- match Re.search Re.total_writes content with
             | Some g => v <- int g ;; Ok (set_total_writes v metrics)
             | None => Ok metrics
             end ;;
  metrics <- match Re.search Re.total_reads content with
             | Some g => v <- int g ;; Ok (set_total_reads v metrics)
             | None => Ok metrics
             end ;;
  metrics <- match Re.search Re.peak_occupancy content with
             | Some (g1, g2) =>
                 p <- int g1 ;; d <- int g2 ;; Ok (set_peak p d metrics)
             | None => Ok metrics
             end ;;
  metrics <- match Re.search Re.throughput content with
             | Some g => v <- float_of_str g ;; Ok (set_throughput_mbps v metrics)
             | None => Ok metrics
             end ;;
  match Re.search Re.success_rate content with
  | Some g => v <- float_of_str g ;; Ok (set_success_rate v metrics)
  | None => Ok metrics
  end.

Definition parse_sync_log (fs : files) (log_file : path)
  : result ((list TestResult * PerformanceMetrics) * list effect) :=
  match fs log_file with
  | None =>
      Ok (([], default_metrics),
          [Stdout ("Warning: Log file not found: " ++ log_file)])
  | Some content =>
      tests <- collect_tests (Re.finditer Re.test_result content) ;;
      metrics <- collect_metrics content ;;
      Ok ((tests, metrics), [])
  end.

Definition parse_async_log (fs : files) (log_file : path)
  : result ((list TestResult * PerformanceMetrics) * list effect) :=
  parse_sync_log fs log_file.

(** [sum(1 for t in tests if t.passed)]. *)
Definition count_passed (tests : list TestResult) : Z :=
  Z.of_nat (List.length (filter passed tests)).

Definition len (tests : list TestResult) : Z :=
  Z.of_nat (List.length tests).

Definition rule (c : string) : string := repeat_str c 70.

Definition test_line (t : TestResult) : string :=
  "  [" ++ (if passed t then "PASS" else "FAIL") ++ "] " ++ name t.

(** The lines added under [if sync_tests:] and [if async_tests:]. *)
Definition test_block (tests : list TestResult) : result (list string) :=
  match tests with
  | [] => Ok []
  | _ =>
      let n_passed := count_passed tests in
      pct <- floordiv (n_passed * 100) (len tests) ;;
      Ok (["" ; "Test Results:"]
            +++ map test_line tests
            +++ ["" ;
                "Summary: " ++ str n_passed ++ "/" ++ str (len tests)
                  ++ " tests passed (" ++ str pct ++ "%)"])
  end.

Definition throughput_lines (m : PerformanceMetrics) : list string :=
  if gt_zero (throughput_mbps m)
  then ["  Throughput:      " ++ fmt_2f (throughput_mbps m) ++ " MB/s"]
  else [].

(** The lines added under [if sync_metrics.total_writes > 0:]. *)
Definition sync_metrics_block (m : PerformanceMetrics) : result (list string) :=
  if total_writes m >? 0 then
    pct <- floordiv (peak_occupancy m * 100) (fifo_depth m) ;;
    Ok ([ "" ;
          "Performance Metrics:" ;
          "  Total Writes:    " ++ str (total_writes m) ;
          "  Total Reads:     " ++ str (total_reads m) ;
          "  Peak Occupancy:  " ++ str (peak_occupancy m) ++ "/"
            ++ str (fifo_depth m) ++ " (" ++ str pct ++ "%)" ]
          +++ throughput_lines m)
  else Ok [].

(** The lines added under [if async_metrics.total_writes > 0:]. *)
Definition async_metrics_block (m : PerformanceMetrics) : list string :=
  if total_writes m >? 0 then
    ([ "" ;
       "Performance Metrics:" ;
       "  Total Writes:    " ++ str (total_writes m) ;
       "  Total Reads:     " ++ str (total_reads m) ]
       +++ throughput_lines m)
  else [].

(** [len(tests) if tests else 0]. *)
Definition total_tests (tests : list TestResult) : Z :=
  match tests with
  | [] => 0
  | _ => len tests
  end.

(** [sum(1 for t in tests if t.passed) if tests else 0]. *)
Definition tests_passed (tests : list TestResult) : Z :=
  match tests with
  | [] => 0
  | _ => count_passed tests
  end.

Definition comparison_lines (sync_tests async_tests : list TestResult)
           (sync_metrics async_metrics : PerformanceMetrics) : list string :=
  let total_sync_tests := total_tests sync_tests in
  let total_async_tests := total_tests async_tests in
  let sync_passed := tests_passed sync_tests in
  let async_passed := tests_passed async_tests in
  [ "                          Sync FIFO    Async FIFO" ;
    "                          ---------    ----------" ;
    "  Tests Passed:           " ++ fmt_5d sync_passed
      ++ "        " ++ fmt_5d async_passed ;
    "  Tests Failed:           " ++ fmt_5d (total_sync_tests - sync_passed)
      ++ "        " ++ fmt_5d (total_async_tests - async_passed) ;
    "  Total Writes:           " ++ fmt_5d (total_writes sync_metrics)
      ++ "        " ++ fmt_5d (total_writes async_metrics) ;
    "  Total Reads:            " ++ fmt_5d (total_reads sync_metrics)
      ++ "        " ++ fmt_5d (total_reads async_metrics) ].

Definition all_passed (sync_tests async_tests : list TestResult) : bool :=
  (tests_passed sync_tests =? total_tests sync_tests)
  && (tests_passed async_tests =? total_tests async_tests)
  && (total_tests sync_tests >? 0) && (total_tests async_tests >? 0).

(** The lines of the closing [if all_passed: ... elif ...: ... else: ...]. *)
Definition overall_status (sync_tests async_tests : list TestResult)
  : list string :=
  if all_passed sync_tests async_tests then
    ["OVERALL STATUS: ALL TESTS PASSED"]
  else if (total_tests sync_tests =? 0) && (total_tests async_tests =? 0) then
    ["OVERALL STATUS: NO SIMULATION DATA FOUND" ;
     "Run 'make test' in the sim/ directory first."]
  else
    ["OVERALL STATUS: SOME TESTS FAILED"].

(** The title of the report; [now] is the text of
    [datetime.now().strftime('%Y-%m-%d %H:%M:%S')]. *)
Definition title_lines (now : string) : list string :=
  [ rule "=" ;
    "FIFO PROJECT - PERFORMANCE ANALYSIS REPORT" ;
    rule "=" ;
    "Generated: " ++ now ;
    "" ].

(** The heading of a section. *)
Definition heading (title : string) : list string :=
  [ rule "-" ; title ; rule "-" ].

(** The list [lines] at the end of [generate_report]. *)
Definition report_lines (now : string)
           (sync_results async_results : list TestResult * PerformanceMetrics)
  : result (list string) :=
  let '(sync_tests, sync_metrics) := sync_results in
  let '(async_tests, async_metrics) := async_results in
  sync_block <- test_block sync_tests ;;
  sync_perf <- sync_metrics_block sync_metrics ;;
  async_block <- test_block async_tests ;;
  Ok (title_lines now
        +++ heading "SYNCHRONOUS FIFO RESULTS"
        +++ sync_block +++ sync_perf
        +++ [ "" ]
        +++ heading "ASYNCHRONOUS FIFO RESULTS"
        +++ async_block +++ async_metrics_block async_metrics
        +++ [ "" ]
        +++ heading "COMPARISON SUMMARY"
        +++ [ "" ]
        +++ comparison_lines sync_tests async_tests sync_metrics async_metrics
        +++ [ "" ; rule "=" ]
        +++ overall_status sync_tests async_tests
        +++ [ rule "=" ]).

Definition generate_report (now : string)
           (sync_results async_results : list TestResult * PerformanceMetrics)
           (output_file : option path)
  : result (string * list effect) :=
  lines <- report_lines now sync_results async_results ;;
  let report := join nl lines in
  Ok (report,
      match output_file with
      | Some f => [MakeParentDirs f ; WriteFile f report ;
                   Stdout ("Report saved to: " ++ f)]
      | None => []
      end).

End AnalyzePerformance.

(** ** plot_results.py: the log reader *)

Module PlotResults.

Import Py Env.

(** The dictionary [metrics]; its key set never changes. *)
Record Metrics : Type := {
  total_writes : num;
  total_reads : num;
  peak_occupancy : Z;
  fifo_depth : Z;
  throughput : num;
  tests_passed : num;
  tests_failed : num
}.

Definition default_metrics : Metrics := {|
  total_writes := Int 0;
  total_reads := Int 0;
  peak_occupancy := 0;
  fifo_depth := 16;
  throughput := Float zero;
  tests_passed := Int 0;
  tests_failed := Int 0
|}.

(** [float(g) if '.' in g else int(g)]. *)
Definition convert (g : string) : result num :=
  if contains "." g then x <- float_of_str g ;; Ok (Float x)
  else n <- int g ;; Ok (Int n).

(** One turn of the loop over [patterns]: the new value of the key. *)
Definition field (found : option string) (old : num) : result num :=
  match found with
  | Some g => convert g
  | None => Ok old
  end.

Definition digits_after (label s : string) : option string :=
  option_map fst (Re.label_digits label s).

Definition parse_metrics (fs : files) (log_file : path)
  : result (Metrics * list effect) :=
  let metrics := default_metrics in
  match fs log_file with
  | None => Ok (metrics, [])
  | Some content =>
      w <- field (Re.search Re.total_writes content) (total_writes metrics) ;;
      r <- field (Re.search Re.total_reads content) (total_reads metrics) ;;
      t <- field (Re.search Re.throughput content) (throughput metrics) ;;
      p <- field (Re.search (digits_after "Passed:") content)
                 (tests_passed metrics) ;;
      f <- field (Re.search (digits_after "Failed:") content)
                 (tests_failed metrics) ;;
      peak <- match Re.search Re.peak_occupancy content with
              | Some (g1, g2) => a <- int g1 ;; b <- int g2 ;; Ok (a, b)
              | None => Ok (peak_occupancy metrics, fifo_depth metrics)
              end ;;
      Ok ({| total_writes := w; total_reads := r;
             peak_occupancy := fst peak; fifo_depth := snd peak;
             throughput := t; tests_passed := p; tests_failed := f |}, [])
  end.

End PlotResults.

(** ** check_coverage.py *)

Module CheckCoverage.

Import Py Env.

Record TestScenario : Type := {
  name : string;
  category : string;
  description : string;
  executed : bool;
  passed : bool
}.

(** [test.executed = True; test.passed = p]. *)
Definition mark (p : bool) (t : TestScenario) : TestScenario :=
  {| name := name t; category := category t; description := description t;
     executed := true; passed := p |}.

(** The loop that fills [executed_tests]. *)
Definition collect_executed (ms : list (string * string * string))
  : dict bool :=
  fold_left
    (fun d '(_, nm, verdict) =>
       dict_set (lower (strip nm)) (String.eqb verdict "PASS") d)
    ms [].

(** [test.name.replace('test_', '').replace('_', ' ')]. *)
Definition plain_name (t : TestScenario) : string :=
  replace "_" " " (replace "test_" "" (name t)).

(** The test of the inner loop over [executed_tests.items()]. *)
Definition alternative (t : TestScenario) (entry : string * bool) : bool :=
  contains (plain_name t) (fst entry) || contains (fst entry) (plain_name t).

(** One turn of the loop over [tests]. *)
Definition update (executed_tests : dict bool) (t : TestScenario)
  : TestScenario :=
  let test_key := lower (description t) in
  match dict_get test_key executed_tests with
  | Some p => mark p t
  | None =>
      match find (alternative t) executed_tests with
      | Some (_, p) => mark p t
      | None => t
      end
  end.

Definition check_test_execution (fs : files) (log_file : path)
           (tests : list TestScenario) : list TestScenario :=
  match fs log_file with
  | None => tests
  | Some content =>
      let executed_tests :=
        collect_executed (Re.finditer Re.test_result content) in
      map (update executed_tests) tests
  end.

(** [sum(1 for t in tests if t.executed)] and the like. *)
Definition count (p : TestScenario -> bool) (tests : list TestScenario) : Z :=
  Z.of_nat (List.length (filter p tests)).

Definition len (tests : list TestScenario) : Z :=
  Z.of_nat (List.length tests).

(** [a*100//b if b > 0 else 0]. *)
Definition percent (a b : Z) : result Z :=
  if b >? 0 then floordiv (a * 100) b else Ok 0.

Definition rule (c : string) : string := repeat_str c 70.

Definition required_tests : list (string * list string) :=
  [ ("Basic Functionality",
     ["Reset behavior" ; "Single write/read" ; "Fill FIFO" ; "Drain FIFO" ;
      "Simultaneous read/write"]) ;
    ("Corner Cases",
     ["Overflow detection" ; "Underflow detection" ; "Pointer wrap-around"]) ;
    ("Stress Tests",
     ["Random operations" ; "Burst operations" ; "Performance test"]) ;
    ("CDC Tests (Async only)",
     ["Clock ratio variations" ; "CDC stress test"]) ].

Definition status_line (t : TestScenario) : string :=
  let status := if passed t then "PASS"
                else if executed t then "FAIL" else "NOT RUN" in
  let symbol := if passed t then "[+]"
                else if executed t then "[-]" else "[ ]" in
  "  " ++ symbol ++ " " ++ description t ++ ": " ++ status.

(** One of the two coverage sections. *)
Definition coverage_section (title : string) (tests : list TestScenario)
  : result (list string) :=
  pct <- percent (count executed tests) (len tests) ;;
  Ok ([ rule "-" ; title ; rule "-" ;
        nl ++ "Tests Defined: " ++ str (len tests) ;
        "Tests Executed: " ++ str (count executed tests) ;
        "Coverage: " ++ str pct ++ "%" ;
        "" ;
        "Test Status:" ]
        +++ map status_line tests
        +++ [ "" ]).

Definition checklist (all_test_names : list string) : list string :=
  flat_map
    (fun '(category, tests) =>
       [ category ++ ":" ]
         +++ map (fun test =>
                    let covered :=
                      existsb (fun name => contains (lower test) name)
                              all_test_names in
                    "  " ++ (if covered then "[x]" else "[ ]") ++ " " ++ test)
                 tests
         +++ [ "" ])
    required_tests.

Definition summary_lines (sync_tests async_tests : list TestScenario)
  : result (list string) :=
  let total_executed := count executed sync_tests + count executed async_tests in
  let total_tests := len sync_tests + len async_tests in
  let total_passed := count passed (sync_tests ++ async_tests)%list in
  cov <- percent total_executed total_tests ;;
  rate <- percent total_passed total_executed ;;
  Ok [ "OVERALL COVERAGE: " ++ str total_executed ++ "/" ++ str total_tests
         ++ " tests executed (" ++ str cov ++ "%)" ;
       "PASS RATE: " ++ str total_passed ++ "/" ++ str total_executed
         ++ " tests passed (" ++ str rate ++ "%)" ].

Definition coverage_lines (sync_tests async_tests : list TestScenario)
  : result (list string) :=
  sync_part <- coverage_section "SYNCHRONOUS FIFO COVERAGE" sync_tests ;;
  async_part <- coverage_section "ASYNCHRONOUS FIFO COVERAGE" async_tests ;;
  summary <- summary_lines sync_tests async_tests ;;
  Ok ([ rule "=" ; "FIFO PROJECT - TEST COVERAGE REPORT" ; rule "=" ; "" ]
        +++ sync_part +++ async_part
        +++ [ rule "-" ; "REQUIRED TEST COVERAGE CHECKLIST" ; rule "-" ; "" ]
        +++ checklist (map (fun t => lower (description t))
                           (sync_tests ++ async_tests)%list)
        +++ [ rule "=" ]
        +++ summary
        +++ [ rule "=" ]).

Definition generate_coverage_report (sync_tests async_tests : list TestScenario)
  : result string :=
  lines <- coverage_lines sync_tests async_tests ;;
  Ok (join nl lines).

End CheckCoverage.

(** ** analyze_synthesis.py *)

Module AnalyzeSynthesis.

Import Py Env.

(** The dictionary returned by [parse_yosys_report]. *)
Record Report : Type := {
  cells : dict Z;
  wires : Z;
  memories : Z;
  processes : Z
}.

(** The dictionary [resources]. *)
Record Resources : Type := {
  logic_cells : Z;
  flip_flops : Z;
  muxes : Z;
  memory_bits : Z;
  total_cells : Z
}.

Definition no_resources : Resources := {|
  logic_cells := 0; flip_flops := 0; muxes := 0;
  memory_bits := 0; total_cells := 0
|}.

Definition logic_names : list string :=
  ["LUT" ; "AND" ; "OR" ; "XOR" ; "NOT" ; "NAND" ; "NOR"].

(** One turn of the loop over [results['cells'].items()]. *)
Definition count_cell (r : Resources) (cell : string * Z) : Resources :=
  let '(cell_type, count) := cell in
  {| total_cells := total_cells r + count;
     flip_flops :=
       if contains "DFF" cell_type || contains "FF" cell_type
       then flip_flops r + count else flip_flops r;
     muxes :=
       if contains "MUX" cell_type then muxes r + count else muxes r;
     logic_cells :=
       if contains_any logic_names cell_type
       then logic_cells r + count else logic_cells r;
     memory_bits := memory_bits r |}.

(** [results] is [None] when the report file was missing. *)
Definition count_resources (results : option Report) : Resources :=
  match results with
  | None => no_resources
  | Some r => fold_left count_cell (cells r) no_resources
  end.

(** [(diff / sync_val * 100) if sync_val > 0 else 0]. *)
Definition diff_pct (sync_val async_val : Z) : result num :=
  let diff := async_val - sync_val in
  if sync_val >? 0 then
    q <- truediv diff sync_val ;;
    p <- mul_int q 100 ;;
    Ok (Float p)
  else Ok (Int 0).

(** The line printed for one key of the comparison in [main]; [label] is
    the text of [key.replace('_', ' ').title()]. *)
Definition comparison_row (label : string) (sync_val async_val : Z)
  : result string :=
  let diff := async_val - sync_val in
  pct <- diff_pct sync_val async_val ;;
  shown <- fmt_plus_1f pct ;;
  Ok (ljust 25 label ++ " " ++ rjust 12 (str sync_val) ++ " "
        ++ rjust 12 (str async_val) ++ " "
        ++ rjust 6 (fmt_plus_d diff) ++ " (" ++ rjust 6 shown ++ "%)").


End AnalyzeSynthesis.

(** ** synthesis_summary.py *)

Module SynthesisSummary.

Import Py Env.

Definition count_ffs (cells : dict Z) : Z :=
  fold_left
    (fun ff_count '(cell_type, count) =>
       if contains "DFF" cell_type || contains "FF" cell_type
       then ff_count + count else ff_count)
    cells 0.

Definition logic_types : list string :=
  ["AND" ; "OR" ; "XOR" ; "NAND" ; "NOR" ; "XNOR" ; "NOT"].

(** The inner loop stops at the first type found, so a cell is added at
    most once. *)
Definition count_logic (cells : dict Z) : Z :=
  fold_left
    (fun logic_count '(cell_type, count) =>
       if contains_any logic_types cell_type
       then logic_count + count else logic_count)
    cells 0.

Definition count_mux (cells : dict Z) : Z :=
  match dict_get "$_MUX_" cells with
  | Some n => n
  | None => 0
  end.

(** The value of [diff_pct] in [print_row]. *)
Definition diff_pct (sync_val async_val : Z) : result num :=
  let diff := async_val - sync_val in
  if sync_val >? 0 then
    q <- truediv diff sync_val ;;
    p <- mul_int q 100 ;;
    Ok (Float p)
  else Ok (Int 0).

(** The line printed by [print_row]. *)
Definition print_row (name : string) (sync_val async_val : Z)
  : result string :=
  let diff := async_val - sync_val in
  pct <- diff_pct sync_val async_val ;;
  shown <- fmt_plus_1f pct ;;
  Ok (ljust 25 name ++ " " ++ rjust 12 (str sync_val) ++ " "
        ++ rjust 12 (str async_val) ++ " "
        ++ rjust 6 (fmt_plus_d diff) ++ " (" ++ rjust 5 shown ++ "%)").

End SynthesisSummary.

(** ** The quantities of the specification

    Definitions that follow the words of the specification, to be compared
    with what the scripts compute. *)

Module Spec.

Import Py.

(** [passRate]: the floor of [passed * 100 / total], and 0 for no test. *)
Definition pass_rate (n_passed total : Z) : Z :=
  if total =? 0 then 0 else n_passed * 100 / total.

(** [occupancyPercent]: the floor of [peak * 100 / depth], and 0 for a
    depth of 0. *)
Definition occupancy_percent (peak depth : Z) : Z :=
  if depth =? 0 then 0 else peak * 100 / depth.

(** [percentDifference(a, b)]: [(a - b) / b * 100] in floating point, and
    0 for a baseline [b] of 0. *)
Definition percent_difference (a b : Z) : result num :=
  if b =? 0 then Ok (Int 0)
  else q <- truediv (a - b) b ;; p <- mul_int q 100 ;; Ok (Float p).

(** A non-empty run of decimal digits. *)
Definition digits (g : string) : Prop :=
  g <> EmptyString /\ all_chars isdigit g = true.



(** The lines that open a performance metrics block. *)
Definition block_opening (m : AnalyzePerformance.PerformanceMetrics)
  : list string :=
  [ "" ;
    "Performance Metrics:" ;
    "  Total Writes:    " ++ str (AnalyzePerformance.total_writes m) ;
    "  Total Reads:     " ++ str (AnalyzePerformance.total_reads m) ].

(** The Peak Occupancy line of a performance metrics block. *)
Definition occupancy_line (m : AnalyzePerformance.PerformanceMetrics)
  : string :=
  "  Peak Occupancy:  " ++ str (AnalyzePerformance.peak_occupancy m) ++ "/"
    ++ str (AnalyzePerformance.fifo_depth m) ++ " ("
    ++ str (occupancy_percent (AnalyzePerformance.peak_occupancy m)
                              (AnalyzePerformance.fifo_depth m)) ++ "%)".

(** The summary line under a list of test results. *)
Definition summary_line (n_passed total : Z) : string :=
  "Summary: " ++ str n_passed ++ "/" ++ str total
    ++ " tests passed (" ++ str (pass_rate n_passed total) ++ "%)".

(** The test list of a dataset with its summary line; nothing for a
    dataset without tests. *)
Definition test_lines (tests : list AnalyzePerformance.TestResult)
  : list string :=
  match tests with
  | [] => []
  | _ => [ "" ; "Test Results:" ]
           +++ map AnalyzePerformance.test_line tests
           +++ [ "" ; summary_line (AnalyzePerformance.count_passed tests)
                                   (AnalyzePerformance.len tests) ]
  end.

(** The section order of a report: title, dataset A (tests, metrics
    block), dataset B (tests, metrics block), comparison table, overall
    status. *)
Definition layout (now : string)
           (sync_tests async_tests : list AnalyzePerformance.TestResult)
           (sync_metrics async_metrics : AnalyzePerformance.PerformanceMetrics)
           (sync_perf async_perf : list string) : list string :=
  AnalyzePerformance.title_lines now
    +++ AnalyzePerformance.heading "SYNCHRONOUS FIFO RESULTS"
    +++ test_lines sync_tests +++ sync_perf
    +++ [ "" ]
    +++ AnalyzePerformance.heading "ASYNCHRONOUS FIFO RESULTS"
    +++ test_lines async_tests +++ async_perf
    +++ [ "" ]
    +++ AnalyzePerformance.heading "COMPARISON SUMMARY"
    +++ [ "" ]
    +++ AnalyzePerformance.comparison_lines sync_tests async_tests
          sync_metrics async_metrics
    +++ [ "" ; AnalyzePerformance.rule "=" ]
    +++ AnalyzePerformance.overall_status sync_tests async_tests
    +++ [ AnalyzePerformance.rule "=" ].

(** The test result a match of the test pattern stands for. *)
Definition result_of (m : string * string * string)
  : AnalyzePerformance.TestResult :=
  let '(_, nm, verdict) := m in
  {| AnalyzePerformance.name := strip nm;
     AnalyzePerformance.passed := String.eqb verdict "PASS";
     AnalyzePerformance.details := "" |}.

(** The flip-flop rule: the name contains DFF or FF. *)
Definition is_flip_flop (n : string) : bool :=
  contains "DFF" n || contains "FF" n.

(** The sum of the counts of the cell types whose name passes a test. *)
Definition sum_where (p : string -> bool) (cells : dict Z) : Z :=
  fold_right (fun '(cell_type, count) acc =>
                if p cell_type then count + acc else acc) 0 cells.

(** The key under which a result line is recorded: its name, stripped
    and case-folded. *)
Definition key_of (m : string * string * string) : string :=
  lower (strip (snd (fst m))).

Definition outcome_of (m : string * string * string) : bool :=
  String.eqb (snd m) "PASS".

(** The assignment a result line makes in the record of executions. *)
Definition record_step (d : dict bool) (m : string * string * string)
  : dict bool :=
  dict_set (key_of m) (outcome_of m) d.

(** The outcome of the last result line, in document order, recorded
    under a key. *)
Definition last_outcome (k : string) (ms : list (string * string * string))
  : option bool :=
  fold_left (fun acc m => if String.eqb (key_of m) k
                          then Some (outcome_of m) else acc) ms None.


End Spec.

(** ** Concrete inputs *)

Module Samples.

Import Py Env.

Definition passing (n : string) : AnalyzePerformance.TestResult :=
  {| AnalyzePerformance.name := n;
     AnalyzePerformance.passed := true;
     AnalyzePerformance.details := "" |}.


(** The files of a run in which a single log exists. *)
Definition one_file (name content : string) : files :=
  fun p => if String.eqb p name then Some content else None.

Definition no_file : files := fun _ => None.

(** A log that reports a depth of zero. *)
Definition zero_depth_log : string :=
  "Total Writes: 5" ++ nl ++ "Peak Occupancy: 0/0" ++ nl.


(** A log that reports reads and no writes. *)
Definition reads_only_log : string :=
  "Total Reads: 5" ++ nl.

(** Metrics with writes, a peak of 12 and a depth of 16. *)
Definition busy_metrics : AnalyzePerformance.PerformanceMetrics :=
  AnalyzePerformance.set_peak 12 16
    (AnalyzePerformance.set_total_writes 5 AnalyzePerformance.default_metrics).

Definition scenario (n d : string) : CheckCoverage.TestScenario :=
  {| CheckCoverage.name := n;
     CheckCoverage.category := "functional";
     CheckCoverage.description := d;
     CheckCoverage.executed := false;
     CheckCoverage.passed := false |}.

(** A log whose only result names a test by a longer title. *)
Definition check_log : string :=
  "[TEST 1] Reset Behavior Check........ PASS" ++ nl.

(** A log with two results that both contain the words of a scenario. *)
Definition two_candidates_log : string :=
  "[TEST 1] Full Reset Behavior.... FAIL" ++ nl
    ++ "[TEST 2] Reset Behavior Check.... PASS" ++ nl.


Definition report (cells : dict Z) : AnalyzeSynthesis.Report :=
  {| AnalyzeSynthesis.cells := cells;
     AnalyzeSynthesis.wires := 0;
     AnalyzeSynthesis.memories := 0;
     AnalyzeSynthesis.processes := 0 |}.

End Samples.

(** ** More of the Python run time *)

Module PyText.

Import Py.

Definition between (lo hi : N) (c : ascii) : bool :=
  ((lo <=? ord c) && (ord c <=? hi))%N.

(** [\w] below code point 256: the characters for which [str.isalnum]
    holds, and the underscore. *)
Definition isword (c : ascii) : bool :=
  between 48 57 c || between 65 90 c || between 95 95 c || between 97 122 c
  || between 170 170 c || between 178 179 c || between 181 181 c
  || between 185 186 c || between 188 190 c || between 192 214 c
  || between 216 246 c || between 248 255 c.

(** The cased characters below code point 256. *)
Definition iscased (c : ascii) : bool :=
  between 65 90 c || between 97 122 c || between 170 170 c
  || between 181 181 c || between 186 186 c || between 192 214 c
  || between 216 246 c || between 248 255 c.

(** The title case of one character; [None] for the three characters, the
    micro sign, the sharp s and the y with diaeresis, whose title case is
    no code point below 256. *)
Definition title_char (c : ascii) : option ascii :=
  if between 97 122 c || between 224 246 c || between 248 254 c
  then Some (ascii_of_N (ord c - 32))
  else if between 181 181 c || between 223 223 c || between 255 255 c
       then None
       else Some c.

(** [s.title()]: a character after a cased one is lower-cased, any other
    is title-cased.  [None] when the result is outside the texts of this
    model. *)
Fixpoint title_from (previous_is_cased : bool) (s : string) : option string :=
  match s with
  | EmptyString => Some EmptyString
  | String c r =>
      match (if previous_is_cased then Some (lower_char c) else title_char c),
            title_from (iscased c) r with
      | Some c', Some r' => Some (String c' r')
      | _, _ => None
      end
  end.

Definition title (s : string) : option string := title_from false s.

(** [s.split('\n')]. *)
Fixpoint split_lines (s : string) : list string :=
  match s with
  | EmptyString => [EmptyString]
  | String c r =>
      if Ascii.eqb c newline then EmptyString :: split_lines r
      else
        match split_lines r with
        | l :: ls => String c l :: ls
        | [] => [String c EmptyString]
        end
  end.

End PyText.

(** ** check_coverage.py: the catalog and the entry point *)

Module CheckCoverageMain.

Import Py Env PyText CheckCoverage.

(** [task\s+(test_\w+)\s*;] at the head of a text: group 1 and the length
    of the match. *)
Definition task_decl (s : string) : option (string * nat) :=
  match Re.eat "task" s with
  | None => None
  | Some r =>
      let '(sp, r1) := Re.span isspace r in
      match sp with
      | EmptyString => None
      | _ =>
          match Re.eat "test_" r1 with
          | None => None
          | Some r2 =>
              let '(w, r3) := Re.span isword r2 in
              match w with
              | EmptyString => None
              | _ =>
                  let '(sp2, r4) := Re.span isspace r3 in
                  match Re.eat ";" r4 with
                  | None => None
                  | Some _ =>
                      Some ("test_" ++ w,
                            (4 + String.length sp + 5 + String.length w
                             + String.length sp2 + 1)%nat)
                  end
              end
          end
      end
  end.

(** The loop over the task declarations. *)
Fixpoint collect_scenarios (task_names : list string)
  : option (list TestScenario) :=
  match task_names with
  | [] => Some []
  | task_name :: r =>
      match title (replace "_" " " (replace "test_" "" task_name)),
            collect_scenarios r with
      | Some desc, Some tests =>
          Some ({| name := task_name;
                   category := "functional";
                   description := desc;
                   executed := false;
                   passed := false |} :: tests)
      | _, _ => None
      end
  end.

(** [None] when a description is outside the texts of this model. *)
Definition extract_tests_from_testbench (fs : files) (tb_file : path)
  : option (list TestScenario) :=
  match fs tb_file with
  | None => Some []
  | Some content => collect_scenarios (Re.finditer task_decl content)
  end.

(** [main]; the paths built from the place of the script are arguments:
    the two directories, as printed, the two testbenches, the two logs
    and the report file.  The result is the exit code and what [main]
    does; [None] stands for a description outside this model. *)
Definition main (fs : files)
           (tb_dir log_dir sync_tb async_tb sync_log async_log report_file : path)
  : option (result (Z * list effect)) :=
  match extract_tests_from_testbench fs sync_tb,
        extract_tests_from_testbench fs async_tb with
  | Some sync_tests, Some async_tests =>
      let sync_tests := check_test_execution fs sync_log sync_tests in
      let async_tests := check_test_execution fs async_log async_tests in
      Some (report <- generate_coverage_report sync_tests async_tests ;;
            Ok (0,
                [ Stdout "FIFO Test Coverage Analysis" ;
                  Stdout (repeat_str "=" 40) ;
                  Stdout ("Testbench directory: " ++ tb_dir) ;
                  Stdout ("Log directory: " ++ log_dir) ;
                  Stdout "" ;
                  Stdout report ;
                  MakeParentDirs report_file ;
                  WriteFile report_file report ;
                  Stdout (nl ++ "Report saved to: " ++ report_file) ]))
  | _, _ => None
  end.

End CheckCoverageMain.

(** ** analyze_performance.py: the entry point *)

Module AnalyzePerformanceMain.

Import Py Env AnalyzePerformance.

(** [main]; the paths built from the place of the script are arguments:
    the log directory, as printed, the two logs and the report file;
    [now] is the time of the report. *)
Definition main (fs : files) (now : string)
           (log_dir sync_log async_log report_file : path)
  : result (Z * list effect) :=
  sync_results <- parse_sync_log fs sync_log ;;
  async_results <- parse_async_log fs async_log ;;
  report <- generate_report now (fst sync_results) (fst async_results)
                            (Some report_file) ;;
  Ok (0,
      ([ Stdout "FIFO Performance Analysis" ;
         Stdout (repeat_str "=" 40) ;
         Stdout ("Looking for logs in: " ++ log_dir) ;
         Stdout "" ]
         ++ snd sync_results ++ snd async_results ++ snd report
         ++ [ Stdout (fst report) ])%list).

End AnalyzePerformanceMain.

(** ** analyze_synthesis.py: the reader of the synthesis report *)

Module AnalyzeSynthesisMain.

Import Py Env PyText AnalyzeSynthesis.

(** [\s+(\w+)\s+(\d+)] at the head of a line: groups 1 and 2. *)
Definition cell_line (s : string) : option (string * string) :=
  let '(sp, r) := Re.span isspace s in
  match sp with
  | EmptyString => None
  | _ =>
      let '(w, r1) := Re.span isword r in
      match w with
      | EmptyString => None
      | _ =>
          let '(sp2, r2) := Re.span isspace r1 in
          match sp2 with
          | EmptyString => None
          | _ =>
              match fst (Re.span isdigit r2) with
              | EmptyString => None
              | g => Some (w, g)
              end
          end
      end
  end.

(** [(\d+)] at the head of a text. *)
Definition digits_here (s : string) : option string :=
  match fst (Re.span isdigit s) with
  | EmptyString => None
  | g => Some g
  end.

Definition set_cell (cell_type : string) (count : Z) (r : Report) : Report :=
  {| cells := dict_set cell_type count (cells r); wires := wires r;
     memories := memories r; processes := processes r |}.

Definition set_wires (v : Z) (r : Report) : Report :=
  {| cells := cells r; wires := v;
     memories := memories r; processes := processes r |}.

Definition set_memories (v : Z) (r : Report) : Report :=
  {| cells := cells r; wires := wires r;
     memories := v; processes := processes r |}.

(** How the statistics part of the loop body ends. *)
Inductive flow : Type :=
| Onward (r : Report)
| Continue
| Break.

(** The body of [if in_stat_section:]. *)
Definition statistics_step (line : string) (r : Report) : result flow :=
  if String.eqb (strip line) "" then Ok Continue
  else if contains "===" line || contains "---" line then Ok Break
  else
    match cell_line line with
    | Some (cell_type, g) =>
        count <- int g ;; Ok (Onward (set_cell cell_type count r))
    | None => Ok (Onward r)
    end.

(** The two tests at the end of the loop body. *)
Definition counters_step (line : string) (r : Report) : result Report :=
  r <- (if contains "Number of wires:" line then
          match Re.search digits_here line with
          | Some g => v <- int g ;; Ok (set_wires v r)
          | None => Ok r
          end
        else Ok r) ;;
  if contains "Number of memories:" line then
    match Re.search digits_here line with
    | Some g => v <- int g ;; Ok (set_memories v r)
    | None => Ok r
    end
  else Ok r.

(** The loop over the lines. *)
Fixpoint scan (lines : list string) (in_stat_section : bool) (r : Report)
  : result Report :=
  match lines with
  | [] => Ok r
  | line :: rest =>
      if contains "Printing statistics" line then scan rest true r
      else if in_stat_section then
        f <- statistics_step line r ;;
        match f with
        | Continue => scan rest in_stat_section r
        | Break => Ok r
        | Onward r' =>
            r'' <- counters_step line r' ;; scan rest in_stat_section r''
        end
      else
        r' <- counters_step line r ;; scan rest in_stat_section r'
  end.

Definition empty_report : Report :=
  {| cells := []; wires := 0; memories := 0; processes := 0 |}.

Definition parse_yosys_report (fs : files) (report_file : path)
  : result (option Report) :=
  match fs report_file with
  | None => Ok None
  | Some content =>
      r <- scan (split_lines content) false empty_report ;; Ok (Some r)
  end.


End AnalyzeSynthesisMain.

(** ** synthesis_summary.py: the reader and the script *)

Module SynthesisSummaryScript.

Import Py Env PyText.

(** The exceptions of this script: those of the run time above, and two
    more. *)
Inductive error : Type :=
| Builtin (e : exn)
| IndexError
| FileNotFoundError.

(** How a computation ends. *)
Inductive ended (A : Type) : Type :=
| Done (a : A)
| Failed (e : error).

Arguments Done {A} a.
Arguments Failed {A} e.

(** A computation that prints: the texts printed, one for each call of
    [print], and how it ended. *)
Definition run (A : Type) : Type := list string * ended A.

Definition and_then {A B : Type} (c : run A) (k : A -> run B) : run B :=
  match c with
  | (out, Done a) => let '(out', e) := k a in ((out ++ out')%list, e)
  | (out, Failed e) => (out, Failed e)
  end.

Definition print (text : string) : run unit := ([text], Done tt).

Definition silent {A : Type} (e : ended A) : run A := ([], e).

Definition lift {A : Type} (r : result A) : ended A :=
  match r with
  | Ok a => Done a
  | Raise e => Failed (Builtin e)
  end.

(** [f.readlines()]: every line keeps its line break. *)
Fixpoint readlines_from (cur s : string) : list string :=
  match s with
  | EmptyString =>
      match cur with
      | EmptyString => []
      | _ => [cur]
      end
  | String c r =>
      if Ascii.eqb c newline then (cur ++ nl) :: readlines_from EmptyString r
      else readlines_from (cur ++ String c EmptyString) r
  end.

Definition readlines (s : string) : list string :=
  readlines_from EmptyString s.

(** [s.split()]: the runs of characters other than whitespace. *)
Fixpoint split_from (cur s : string) : list string :=
  match s with
  | EmptyString =>
      match cur with
      | EmptyString => []
      | _ => [cur]
      end
  | String c r =>
      if isspace c then
        match cur with
        | EmptyString => split_from EmptyString r
        | _ => cur :: split_from EmptyString r
        end
      else split_from (cur ++ String c EmptyString) r
  end.

Definition split (s : string) : list string := split_from EmptyString s.

(** The digits of an integer text, with single underscores between
    digits. *)
Fixpoint int_body (acc : Z) (after_digit : bool) (s : string) : option Z :=
  match s with
  | EmptyString => if after_digit then Some acc else None
  | String c r =>
      if isdigit c then int_body (10 * acc + digit_val c) true r
      else if Ascii.eqb c "_" && after_digit then
             match r with
             | EmptyString => None
             | _ => int_body acc false r
             end
           else None
  end.

(** [int(s)] for a text without whitespace: a sign, then digits. *)
Definition int_of_token (s : string) : ended Z :=
  let parsed :=
    match s with
    | String "+" r => int_body 0 false r
    | String "-" r => option_map Z.opp (int_body 0 false r)
    | _ => int_body 0 false s
    end in
  match parsed with
  | Some n => Done n
  | None => Failed (Builtin ValueError)
  end.

(** [xs[-1]] and [xs[1]]. *)
Definition last_item (xs : list string) : ended string :=
  match rev xs with
  | x :: _ => Done x
  | [] => Failed IndexError
  end.

Definition second_item (xs : list string) : ended string :=
  match xs with
  | _ :: x :: _ => Done x
  | _ => Failed IndexError
  end.

Definition first_item (xs : list string) : ended string :=
  match xs with
  | x :: _ => Done x
  | [] => Failed IndexError
  end.

(** The dictionary returned by [parse_report]. *)
Record Data : Type := {
  total_cells : Z;
  cells : dict Z;
  wires : Z
}.

Definition on {A B : Type} (e : ended A) (k : A -> ended B) : ended B :=
  match e with
  | Done a => k a
  | Failed x => Failed x
  end.

(** The body of the loop over the lines. *)
Definition line_step (line : string) (d : Data) : ended Data :=
  on (if contains "Number of cells:" line then
        on (last_item (split line)) (fun t =>
        on (int_of_token t) (fun n =>
        Done {| total_cells := n; cells := cells d; wires := wires d |}))
      else Done d) (fun d =>
  on (if contains "Number of wires:" line then
        on (last_item (split line)) (fun t =>
        on (int_of_token t) (fun n =>
        Done {| total_cells := total_cells d; cells := cells d; wires := n |}))
      else Done d) (fun d =>
  if startswith "$_" (strip line) then
    let parts := split line in
    on (first_item parts) (fun cell_type =>
    on (second_item parts) (fun t =>
    on (int_of_token t) (fun count =>
    Done {| total_cells := total_cells d;
            cells := dict_set cell_type count (cells d);
            wires := wires d |})))
  else Done d)).

Fixpoint lines_loop (lines : list string) (d : Data) : ended Data :=
  match lines with
  | [] => Done d
  | line :: rest => on (line_step line d) (lines_loop rest)
  end.

Definition parse_report (fs : files) (filename : path) : ended Data :=
  match fs filename with
  | None => Failed FileNotFoundError
  | Some content =>
      lines_loop (readlines content)
                 {| total_cells := 0; cells := []; wires := 0 |}
  end.

(** [sorted(items, key=lambda x: x[1], reverse=True)]: the larger counts
    first, equal counts in their first order. *)
Fixpoint insert_by_count (x : string * Z) (l : list (string * Z))
  : list (string * Z) :=
  match l with
  | [] => [x]
  | y :: r => if snd y <=? snd x then x :: l else y :: insert_by_count x r
  end.

Definition sorted_by_count (l : list (string * Z)) : list (string * Z) :=
  fold_right insert_by_count [] l.

(** [f"{a/b*100:.1f}"]. *)
Definition share (a b : Z) : ended string :=
  lift (q <- truediv a b ;; p <- mul_int q 100 ;; Ok (fmt_fixed false 1 p)).

Definition print_row (name : string) (sync_val async_val : Z) : run unit :=
  and_then (silent (lift (SynthesisSummary.print_row name sync_val async_val)))
           print.

(** The details of one design. *)
Definition details (title : string) (d : Data) (ff mux logic : Z) : run unit :=
  and_then (print title) (fun _ =>
  and_then (print ("  Total Resources: " ++ str (total_cells d) ++ " cells"))
           (fun _ =>
  and_then (silent (share ff (total_cells d))) (fun p =>
  and_then (print ("  - Flip-Flops:    " ++ str ff ++ " (" ++ p ++ "%)"))
           (fun _ =>
  and_then (silent (share mux (total_cells d))) (fun p =>
  and_then (print ("  - Multiplexers:  " ++ str mux ++ " (" ++ p ++ "%)"))
           (fun _ =>
  and_then (silent (share logic (total_cells d))) (fun p =>
  and_then (print ("  - Logic Gates:   " ++ str logic ++ " (" ++ p ++ "%)"))
           (fun _ =>
  and_then (print "") (fun _ =>
  and_then (print "  Top Cell Types:") (fun _ =>
  (map (fun '(cell, count) =>
          "    " ++ ljust 20 cell ++ " " ++ rjust 5 (str count) ++ " cells")
       (firstn 8 (sorted_by_count (cells d))),
   Done tt))))))))))).

Definition sync_path : path := "../syn/reports/fifo_sync_synth.rpt".
Definition async_path : path := "../syn/reports/fifo_async_synth.rpt".

(** The statements of the script from its first line to the end of the
    detailed breakdown; the key insights that follow are not part of the
    model. *)
Definition breakdown (fs : files) : run unit :=
  and_then (print (nl ++ repeat_str "=" 80)) (fun _ =>
  and_then (print (repeat_str " " 25 ++ "FPGA SYNTHESIS RESULTS")) (fun _ =>
  and_then (print (repeat_str "=" 80 ++ nl)) (fun _ =>
  and_then (silent (parse_report fs sync_path)) (fun sync_data =>
  and_then (silent (parse_report fs async_path)) (fun async_data =>
  let sync_ff := SynthesisSummary.count_ffs (cells sync_data) in
  let sync_logic := SynthesisSummary.count_logic (cells sync_data) in
  let sync_mux := SynthesisSummary.count_mux (cells sync_data) in
  let async_ff := SynthesisSummary.count_ffs (cells async_data) in
  let async_logic := SynthesisSummary.count_logic (cells async_data) in
  let async_mux := SynthesisSummary.count_mux (cells async_data) in
  and_then (print (ljust 25 "Resource" ++ " " ++ rjust 12 "Sync FIFO" ++ " "
                     ++ rjust 12 "Async FIFO" ++ " " ++ rjust 15 "Difference"))
           (fun _ =>
  and_then (print (repeat_str "-" 80)) (fun _ =>
  and_then (print_row "Total Cells" (total_cells sync_data)
                      (total_cells async_data)) (fun _ =>
  and_then (print_row "Flip-Flops (Registers)" sync_ff async_ff) (fun _ =>
  and_then (print_row "Logic Gates" sync_logic async_logic) (fun _ =>
  and_then (print_row "Multiplexers" sync_mux async_mux) (fun _ =>
  and_then (print_row "Wires" (wires sync_data) (wires async_data)) (fun _ =>
  and_then (print (nl ++ repeat_str "-" 80)) (fun _ =>
  and_then (print (nl ++ "DETAILED BREAKDOWN:" ++ nl)) (fun _ =>
  and_then (details "SYNCHRONOUS FIFO:" sync_data sync_ff sync_mux sync_logic)
           (fun _ =>
  and_then (print (nl ++ repeat_str "-" 80 ++ nl)) (fun _ =>
  details "ASYNCHRONOUS FIFO:" async_data async_ff async_mux async_logic
  )))))))))))))))).

End SynthesisSummaryScript.

(** ** analyze_synthesis.py: the printed report and [main] *)

Module AnalyzeSynthesisReport.

Import Py Env PyText AnalyzeSynthesis AnalyzeSynthesisMain.
Import SynthesisSummaryScript(run, ended, Done, Failed, error, Builtin,
                              and_then, print, silent, lift, sorted_by_count).

Definition no_results : string := "ERROR: No synthesis results found!".

(** One line of the cell breakdown: [f"  {cell_type:20s} {count:6d}"]. *)
Definition cell_row (cell : string * Z) : string :=
  let '(cell_type, count) := cell in
  "  " ++ ljust 20 cell_type ++ " " ++ rjust 6 (str count).

(** The lines printed by [print_report].  A dictionary of results has
    its four keys, so [not results] holds for [None] only. *)
Definition print_report (design_name : string) (results : option Report)
           (resources : Resources) : list string :=
  [ nl ++ repeat_str "=" 70 ;
    "SYNTHESIS REPORT: " ++ design_name ;
    repeat_str "=" 70 ++ nl ]
  +++ match results with
      | None => [ no_results ]
      | Some r =>
          let sorted_cells := sorted_by_count (cells r) in
          [ "Resource Utilization:" ;
            "  Total Cells:        " ++ rjust 6 (str (total_cells resources)) ;
            "  Flip-Flops:         " ++ rjust 6 (str (flip_flops resources)) ;
            "  Logic Cells (LUTs): " ++ rjust 6 (str (logic_cells resources)) ;
            "  Multiplexers:       " ++ rjust 6 (str (muxes resources)) ;
            "  Wires:              " ++ rjust 6 (str (wires r)) ;
            "  Memories:           " ++ rjust 6 (str (memories r)) ;
            nl ++ "Cell Breakdown:" ]
          +++ map cell_row (firstn 15 sorted_cells)
          +++ (if (15 <? List.length sorted_cells)%nat
               then [ "  ... and "
                        ++ str (Z.of_nat (List.length sorted_cells) - 15)
                        ++ " more cell types" ]
               else [])
          +++ [ nl ++ repeat_str "=" 70 ++ nl ]
      end.

(** The part of [main] for one design: [target] is the name in the
    advice printed when the report is missing. *)
Definition design_part (fs : files) (report : path)
           (design_name target : string) : run unit :=
  match fs report with
  | Some _ =>
      and_then (silent (lift (parse_yosys_report fs report))) (fun results =>
      (print_report design_name results (count_resources results), Done tt))
  | None =>
      ([ nl ++ "WARNING: " ++ report ++ " not found!" ;
         "Run 'make " ++ target ++ "' in syn/ directory first." ++ nl ],
       Done tt)
  end.

(** One turn of the loop over the keys of the comparison. *)
Definition print_comparison_row (label : string) (sync_val async_val : Z)
  : run unit :=
  and_then (silent (lift (comparison_row label sync_val async_val))) print.

Definition comparison_part (fs : files) (sync_report async_report : path)
  : run unit :=
  match fs sync_report, fs async_report with
  | Some _, Some _ =>
      and_then (print (repeat_str "=" 70)) (fun _ =>
      and_then (print "COMPARISON: Sync vs Async FIFO") (fun _ =>
      and_then (print (repeat_str "=" 70)) (fun _ =>
      and_then (print (nl ++ ljust 25 "Resource" ++ " " ++ rjust 12 "Sync"
                          ++ " " ++ rjust 12 "Async" ++ " "
                          ++ rjust 15 "Difference")) (fun _ =>
      and_then (print (repeat_str "-" 70)) (fun _ =>
      and_then (silent (lift (parse_yosys_report fs sync_report)))
               (fun sync_results =>
      and_then (silent (lift (parse_yosys_report fs async_report)))
               (fun async_results =>
      let sync_res := count_resources sync_results in
      let async_res := count_resources async_results in
      and_then (print_comparison_row "Total Cells" (total_cells sync_res)
                                     (total_cells async_res)) (fun _ =>
      and_then (print_comparison_row "Flip Flops" (flip_flops sync_res)
                                     (flip_flops async_res)) (fun _ =>
      and_then (print_comparison_row "Logic Cells" (logic_cells sync_res)
                                     (logic_cells async_res)) (fun _ =>
      and_then (print_comparison_row "Muxes" (muxes sync_res)
                                     (muxes async_res)) (fun _ =>
      and_then (print (nl ++ repeat_str "=" 70)) (fun _ =>
      and_then (print ("Async FIFO Overhead: Clock domain crossing logic "
                         ++ "(Gray counters,")) (fun _ =>
      and_then (print ("synchronizers) increases resource usage compared "
                         ++ "to Sync FIFO.")) (fun _ =>
      print (repeat_str "=" 70 ++ nl)))))))))))))))
  | _, _ => ([], Done tt)
  end.

Definition sync_report : path := "../syn/reports/fifo_sync_synth.rpt".
Definition async_report : path := "../syn/reports/fifo_async_synth.rpt".

Definition main (fs : files) : run unit :=
  and_then (print (nl ++ repeat_str "=" 70)) (fun _ =>
  and_then (print "FPGA SYNTHESIS ANALYSIS") (fun _ =>
  and_then (print (repeat_str "=" 70)) (fun _ =>
  and_then (design_part fs sync_report "Synchronous FIFO" "synth_sync")
           (fun _ =>
  and_then (design_part fs async_report "Asynchronous FIFO" "synth_async")
           (fun _ =>
  comparison_part fs sync_report async_report))))).

End AnalyzeSynthesisReport.

(** ** More concrete inputs *)

Module MoreSamples.

Import Py Env.

(** A log whose only result has a name of one blank. *)
Definition blank_name_log : string :=
  "[TEST 3]  . PASS" ++ nl.

(** A testbench with two test tasks and one other task. *)
Definition small_testbench : string :=
  "task test_reset_behavior;" ++ nl ++ "endtask" ++ nl
    ++ "task helper;" ++ nl ++ "endtask" ++ nl
    ++ "task   test_Fill_FIFO ;" ++ nl ++ "endtask" ++ nl.

(** A synthesis report in the layout of the tool: the statistics follow
    a heading line of the module. *)
Definition tool_report : string :=
  "2.27. Printing statistics." ++ nl ++ nl
    ++ "=== fifo_sync ===" ++ nl ++ nl
    ++ "   Number of wires:                 30" ++ nl
    ++ "   Number of cells:                 12" ++ nl
    ++ "     SB_DFFE                        8" ++ nl
    ++ "     SB_LUT4                        4" ++ nl.

(** A gate-level report with its cell count, and one without. *)
Definition gate_report : string :=
  "   Number of wires:                 30" ++ nl
    ++ "   Number of cells:                 12" ++ nl
    ++ "     $_DFF_P_                       8" ++ nl
    ++ "     $_MUX_                         3" ++ nl
    ++ "     $_XOR_                         1" ++ nl.

Definition uncounted_report : string :=
  "   Number of wires:                 30" ++ nl
    ++ "     $_DFF_P_                       8" ++ nl.

Definition two_reports (sync async : string) : files :=
  fun p =>
    if String.eqb p SynthesisSummaryScript.sync_path then Some sync
    else if String.eqb p SynthesisSummaryScript.async_path then Some async
         else None.

(** A synthesis report whose cell lines follow the marker at once. *)
Definition plain_report : string :=
  "   Number of wires:                 30" ++ nl
    ++ "Printing statistics" ++ nl
    ++ "     SB_DFFE                        8" ++ nl
    ++ "     $_AND_                         5" ++ nl
    ++ "     SB_LUT4                        4" ++ nl
    ++ "-----" ++ nl
    ++ "     SB_CARRY                       3" ++ nl.

(** A gate-level report with a cell line that gives no count. *)
Definition bare_cell_report : string :=
  "   Number of cells:                 12" ++ nl
    ++ "     $_DFF_P_" ++ nl.

(** A testbench whose tasks are named after two requirements of the
    checklist. *)
Definition write_read_testbench : string :=
  "task test_single_write_read;" ++ nl ++ "endtask" ++ nl
    ++ "task test_pointer_wrap_around;" ++ nl ++ "endtask" ++ nl.

End MoreSamples.

(** ** Notions used in the further properties *)

Module Terms.

Import Py Env Spec PyText.



(** A character other than the line break. *)
Definition no_break (c : ascii) : bool := negb (Ascii.eqb c newline).


(** An entry of a cell report as the reader records it: a non-empty name
    of word characters and a count that is not negative. *)
Definition cell_entry (c : string * Z) : Prop :=
  fst c <> EmptyString /\ all_chars isword (fst c) = true /\ 0 <= snd c.

(** A report as the reader builds it. *)
Definition well_formed (r : AnalyzeSynthesis.Report) : Prop :=
  NoDup (map fst (AnalyzeSynthesis.cells r))
  /\ Forall cell_entry (AnalyzeSynthesis.cells r)
  /\ 0 <= AnalyzeSynthesis.wires r
  /\ 0 <= AnalyzeSynthesis.memories r
  /\ AnalyzeSynthesis.processes r = 0.

Definition marker (line : string) : bool :=
  contains "Printing statistics" line.

Definition blank (line : string) : bool :=
  String.eqb (strip line) "".

Definition separator (line : string) : bool :=
  contains "===" line || contains "---" line.

(** A scenario as the catalog scan creates it: the name of a test task,
    not yet executed. *)
Definition fresh (t : CheckCoverage.TestScenario) : Prop :=
  (exists w, CheckCoverage.name t = "test_" ++ w
             /\ w <> EmptyString /\ all_chars isword w = true)
  /\ CheckCoverage.category t = "functional"
  /\ CheckCoverage.executed t = false
  /\ CheckCoverage.passed t = false.

(** What the reader of the summary script keeps true of the cells it
    has recorded. *)
Definition gate_cells (d : SynthesisSummaryScript.Data) : Prop :=
  NoDup (map fst (SynthesisSummaryScript.cells d))
  /\ Forall (fun c => String.prefix "$_" (fst c) = true)
            (SynthesisSummaryScript.cells d).

(** How a computation with texts ended. *)
Definition ending {A : Type} (c : SynthesisSummaryScript.run A)
  : SynthesisSummaryScript.ended A := snd c.

(** The three lines the summary script prints before it opens a
    report. *)
Definition titles : list string :=
  [ nl ++ repeat_str "=" 80 ;
    repeat_str " " 25 ++ "FPGA SYNTHESIS RESULTS" ;
    repeat_str "=" 80 ++ nl ].

(** A character that a lower-cased description can hold: a word
    character or a space. *)
Definition spoken (c : ascii) : bool := isword c || Ascii.eqb c " ".

(** The requirements of the checklist written with a slash or a
    hyphen. *)
Definition marked_requirements : list string :=
  ["Single write/read"; "Simultaneous read/write"; "Pointer wrap-around"].



End Terms.

(** * Properties *)

(** ** The run time *)

Module PyFacts.

Import Py.

Lemma bind_ok {A B : Type} (c : result A) (k : A -> result B) (b : B) :
  bind c k = Ok b -> exists a, c = Ok a /\ k a = Ok b.
Proof.
  destruct c as [a | e]; simpl; intros H.
  - exists a. split; [reflexivity | exact H].
  - discriminate H.
Qed.

(** [String.prefix] is the prefix relation. *)
Lemma prefix_spec (p s : string) :
  String.prefix p s = true <-> exists r, s = p ++ r.
Proof.
  revert s. induction p as [| c p IH]; intros s.
  - split; [intros _; exists s; reflexivity | intros _; destruct s; reflexivity].
  - destruct s as [| d s]; simpl.
    + split; [discriminate | intros [r H]; discriminate H].
    + destruct (Ascii.ascii_dec c d) as [-> | Hne].
      * rewrite IH. split; intros [r H]; exists r.
        -- now rewrite H.
        -- now injection H.
      * split; [discriminate |].
        intros [r H]. injection H as H1 _. exfalso. now apply Hne.
Qed.

(** [contains] is the substring relation of Python's [in]. *)
Lemma contains_spec (needle hay : string) :
  contains needle hay = true <-> exists a b, hay = a ++ needle ++ b.
Proof.
  induction hay as [| c hay IH].
  - change (contains needle EmptyString)
      with (String.prefix needle EmptyString || false).
    rewrite orb_false_r, prefix_spec. split.
    + intros [r H]. exists EmptyString, r. exact H.
    + intros [a [b H]]. destruct a as [| x a]; [| discriminate H].
      exists b. exact H.
  - change (contains needle (String c hay))
      with (String.prefix needle (String c hay) || contains needle hay).
    rewrite orb_true_iff, IH, prefix_spec. split.
    + intros [[r H] | [a [b H]]].
      * exists EmptyString, r. exact H.
      * exists (String c a), b. simpl. now rewrite H.
    + intros [a [b H]]. destruct a as [| x a]; simpl in H.
      * left. exists b. exact H.
      * right. injection H as _ H. exists a, b. exact H.
Qed.



(** [int] succeeds on a non-empty run of digits. *)
Lemma int_digits (s : string) :
  s <> EmptyString -> all_chars isdigit s = true ->
  int s = Ok (digits_value 0 s).
Proof.
  intros Hne Hd. unfold int. destruct s; [contradiction |].
  now rewrite Hd.
Qed.


Lemma append_empty_r (s : string) : s ++ EmptyString = s.
Proof. induction s as [| c s IH]; simpl; [reflexivity | now rewrite IH]. Qed.


Lemma digits_value_nonneg (s : string) (acc : Z) :
  0 <= acc -> all_chars isdigit s = true -> 0 <= digits_value acc s.
Proof.
  revert acc. induction s as [| c s IH]; intros acc Ha H; [exact Ha |].
  cbn [digits_value all_chars] in *.
  apply andb_true_iff in H as [Hc Hs]. apply IH; [| exact Hs].
  unfold isdigit in Hc. apply andb_true_iff in Hc as [H1 _].
  apply N.leb_le in H1. unfold digit_val. lia.
Qed.


Lemma floordiv_nonzero (a b : Z) : b <> 0 -> floordiv a b = Ok (a / b).
Proof.
  intros Hb. unfold floordiv.
  destruct (b =? 0) eqn:E; [apply Z.eqb_eq in E; contradiction | reflexivity].
Qed.

Lemma floordiv_zero (a : Z) : floordiv a 0 = Raise ZeroDivisionError.
Proof. reflexivity. Qed.

Lemma gtb_true (a b : Z) : (a >? b) = true <-> b < a.
Proof. rewrite Z.gtb_ltb. apply Z.ltb_lt. Qed.

Lemma gtb_false (a b : Z) : (a >? b) = false <-> a <= b.
Proof. rewrite Z.gtb_ltb. apply Z.ltb_ge. Qed.

(** Dictionaries: what a key holds after an assignment. *)
Lemma dict_get_set {V : Type} (k k' : string) (v : V) (d : dict V) :
  dict_get k (dict_set k' v d)
  = if String.eqb k' k then Some v else dict_get k d.
Proof.
  induction d as [| [k0 v0] d IH]; simpl.
  - destruct (String.eqb k' k); reflexivity.
  - destruct (String.eqb k0 k') eqn:E0; simpl.
    + apply String.eqb_eq in E0. subst k0.
      destruct (String.eqb k' k); reflexivity.
    + destruct (String.eqb k0 k) eqn:E1.
      * apply String.eqb_eq in E1. subst k0.
        rewrite String.eqb_sym, E0. reflexivity.
      * exact IH.
Qed.

Lemma dict_set_keys {V : Type} (k : string) (v : V) (d : dict V) :
  map fst (dict_set k v d)
  = if existsb (String.eqb k) (map fst d) then map fst d
    else (map fst d ++ [k])%list.
Proof.
  induction d as [| [k0 v0] d IH]; simpl; [reflexivity |].
  rewrite (String.eqb_sym k k0).
  destruct (String.eqb k0 k) eqn:E; simpl; [reflexivity |].
  rewrite IH. destruct (existsb (String.eqb k) (map fst d)); reflexivity.
Qed.

Lemma dict_set_nodup {V : Type} (k : string) (v : V) (d : dict V) :
  NoDup (map fst d) -> NoDup (map fst (dict_set k v d)).
Proof.
  intros H. rewrite dict_set_keys.
  destruct (existsb (String.eqb k) (map fst d)) eqn:E; [exact H |].
  apply NoDup_app; [exact H | repeat constructor; intros [] | ].
  intros x Hin [Hx | []]. subst x.
  assert (existsb (String.eqb k) (map fst d) = true) as C.
  { apply existsb_exists. exists k. split; [exact Hin | apply String.eqb_refl]. }
  rewrite C in E. discriminate E.
Qed.


(** [find] returns the first entry, in list order, that passes the test. *)
Lemma find_first {A : Type} (f : A -> bool) (l : list A) (x : A) :
  find f l = Some x ->
  exists before after,
    l = (before ++ x :: after)%list
    /\ f x = true /\ Forall (fun y => f y = false) before.
Proof.
  induction l as [| y l IH]; simpl; [discriminate |].
  destruct (f y) eqn:E.
  - intros H. injection H as <-. exists [], l. repeat split; [exact E | constructor].
  - intros H. destruct (IH H) as [b [a [-> [Hx Hb]]]].
    exists (y :: b), a. repeat split; [exact Hx | now constructor].
Qed.

Lemma find_after {A : Type} (f : A -> bool) (before after : list A) (x : A) :
  Forall (fun y => f y = false) before -> f x = true ->
  find f (before ++ x :: after)%list = Some x.
Proof.
  intros Hb Hx. induction Hb as [| y before Hy _ IH]; simpl.
  - now rewrite Hx.
  - now rewrite Hy.
Qed.

Lemma find_nowhere {A : Type} (f : A -> bool) (l : list A) :
  Forall (fun y => f y = false) l -> find f l = None.
Proof.
  intros H. induction H as [| y l Hy _ IH]; simpl; [reflexivity |].
  now rewrite Hy.
Qed.

End PyFacts.

(** ** The regular expressions *)

Module ReFacts.

Import Py Re Spec.

Lemma span_all (p : ascii -> bool) (s : string) :
  all_chars p (fst (span p s)) = true.
Proof.
  induction s as [| c s IH]; simpl; [reflexivity |].
  destruct (p c) eqn:E; [| reflexivity].
  destruct (span p s) as [a b]. simpl in *. now rewrite E, IH.
Qed.

Lemma span_append (p : ascii -> bool) (s : string) :
  fst (span p s) ++ snd (span p s) = s.
Proof.
  induction s as [| c s IH]; simpl; [reflexivity |].
  destruct (p c); [| reflexivity].
  destruct (span p s) as [a b]. simpl in *. now rewrite IH.
Qed.

(** [search] reports a match of the matcher at some position, and none
    exists when it reports none at the head. *)
Lemma search_some {A : Type} (m : string -> option A) (s : string) (a : A) :
  search m s = Some a ->
  exists before rest,
    s = before ++ rest /\ m rest = Some a.
Proof.
  induction s as [| c s IH]; simpl.
  - destruct (m EmptyString) eqn:E; [| discriminate].
    intros H. injection H as <-. exists EmptyString, EmptyString. now split.
  - destruct (m (String c s)) eqn:E.
    + intros H. injection H as <-. exists EmptyString, (String c s). now split.
    + intros H. destruct (IH H) as [b [r [-> Hr]]].
      exists (String c b), r. now split.
Qed.

Lemma search_none {A : Type} (m : string -> option A) (s : string) :
  search m s = None -> forall before rest, s = before ++ rest -> m rest = None.
Proof.
  induction s as [| c s IH]; simpl.
  - destruct (m EmptyString) eqn:E; [discriminate |].
    intros _ b r H. destruct b; [| discriminate H]. simpl in H. now subst r.
  - destruct (m (String c s)) eqn:E; [discriminate |].
    intros H b r Hs. destruct b as [| x b]; simpl in Hs.
    + now subst r.
    + injection Hs as _ Hs. exact (IH H b r Hs).
Qed.






(** What [search] finds has the shape the matcher guarantees. *)
Lemma search_group {A : Type} (m : string -> option A) (P : A -> Prop) :
  (forall s a, m s = Some a -> P a) ->
  forall s a, search m s = Some a -> P a.
Proof.
  intros Hm s a H. destruct (search_some m s a H) as [b [r [_ Hr]]].
  exact (Hm r a Hr).
Qed.

(** Every element of [finditer] is a match of the matcher somewhere. *)
Lemma finditer_from_forall {A : Type} (m : string -> option (A * nat))
      (P : A -> Prop) :
  (forall s a n, m s = Some (a, n) -> P a) ->
  forall s skip, Forall P (finditer_from m skip s).
Proof.
  intros Hm. induction s as [| c s IH]; intros skip; simpl; [constructor |].
  destruct skip as [| k]; [| apply IH].
  destruct (m (String c s)) as [[a n] |] eqn:E; [| apply IH].
  constructor; [exact (Hm _ _ _ E) | apply IH].
Qed.

Lemma dots_verdict_cases (s v : string) (n : nat) :
  dots_verdict s = Some (v, n) -> v = "PASS" \/ v = "FAIL".
Proof.
  unfold dots_verdict. destruct (span isdot s) as [dots r].
  destruct dots; [discriminate |].
  destruct (eat " " r) as [r' |]; [| discriminate].
  destruct (String.prefix "PASS" r').
  - intros H. injection H as <- _. now left.
  - destruct (String.prefix "FAIL" r'); [| discriminate].
    intros H. injection H as <- _. now right.
Qed.

Lemma name_verdict_cases (s acc nm v : string) (n : nat) :
  name_verdict acc s = Some (nm, v, n) -> v = "PASS" \/ v = "FAIL".
Proof.
  revert acc. induction s as [| c s IH]; intros acc; simpl; [discriminate |].
  destruct (Ascii.eqb c newline); [discriminate |].
  destruct (dots_verdict s) as [[v0 n0] |] eqn:E.
  - intros H. injection H as _ <- _. exact (dots_verdict_cases _ _ _ E).
  - apply IH.
Qed.

(** Group 1 of a test-result match is a run of digits and group 3 is one
    of the two verdicts. *)
Lemma test_result_groups (s num nm v : string) (n : nat) :
  test_result s = Some ((num, nm, v), n) ->
  digits num /\ (v = "PASS" \/ v = "FAIL").
Proof.
  unfold test_result. destruct (eat "[TEST " s) as [r |]; [| discriminate].
  pose proof (span_all isdigit r) as Hall.
  destruct (span isdigit r) as [num0 r1]. simpl in Hall.
  destruct num0 as [| c num0]; [discriminate |].
  destruct (eat "] " r1) as [r2 |]; [| discriminate].
  destruct (name_verdict EmptyString r2) as [[[nm0 v0] n0] |] eqn:E; [| discriminate].
  intros H. injection H as <- <- <- _. split.
  - split; [discriminate | exact Hall].
  - exact (name_verdict_cases _ _ _ _ _ E).
Qed.

Lemma finditer_test_result (s : string) :
  Forall (fun '(num, _, v) => digits num /\ (v = "PASS" \/ v = "FAIL"))
         (finditer test_result s).
Proof.
  apply finditer_from_forall. intros s0 [[num nm] v] n H.
  exact (test_result_groups _ _ _ _ _ H).
Qed.

End ReFacts.

(** ** analyze_performance.py: the parser *)

Module ParserFacts.

Import Py Env Spec AnalyzePerformance.

(** The conversion of the test number never fails, so every match of the
    test pattern becomes a test result, in document order. *)
Lemma collect_tests_ok (ms : list (string * string * string)) :
  Forall (fun '(num, _, v) => digits num /\ (v = "PASS" \/ v = "FAIL")) ms ->
  collect_tests ms = Ok (map result_of ms).
Proof.
  induction 1 as [| [[num nm] v] ms [[Hne Hd] _] _ IH]; simpl; [reflexivity |].
  rewrite (PyFacts.int_digits num Hne Hd). simpl. rewrite IH. reflexivity.
Qed.

Lemma tests_of_content (content : string) :
  collect_tests (Re.finditer Re.test_result content)
  = Ok (map result_of (Re.finditer Re.test_result content)).
Proof. apply collect_tests_ok, ReFacts.finditer_test_result. Qed.

Lemma int_of_group (g : string) : digits g -> int g = Ok (digits_value 0 g).
Proof. intros [Hne Hd]. exact (PyFacts.int_digits g Hne Hd). Qed.


End ParserFacts.

(** ** analyze_performance.py: missing files and parsed fields *)

Module ParserClaims.

Import Py Env Spec AnalyzePerformance.

(** C7.  When the log file does not exist, [parse_sync_log] (and with it
    [parse_async_log]) returns no test and the default metrics, all
    counters zero and a depth of 16, prints one warning that names the
    file, and raises nothing.  The log reader of plot_results.py also
    returns its defaults and raises nothing; it prints nothing. *)
Theorem missing_log_defaults (fs : files) (log_file : path) :
  fs log_file = None ->
  parse_sync_log fs log_file
  = Ok (([], default_metrics),
        [Stdout ("Warning: Log file not found: " ++ log_file)])
  /\ parse_async_log fs log_file = parse_sync_log fs log_file
  /\ (total_writes default_metrics = 0
      /\ total_reads default_metrics = 0
      /\ peak_occupancy default_metrics = 0
      /\ fifo_depth default_metrics = 16
      /\ throughput_mbps default_metrics = zero
      /\ success_rate default_metrics = zero)
  /\ PlotResults.parse_metrics fs log_file
     = Ok (PlotResults.default_metrics, []).
Proof.
  intros H. unfold parse_async_log, parse_sync_log, PlotResults.parse_metrics.
  rewrite H. repeat split.
Qed.

Lemma missing_log_defaults_witness :
  parse_sync_log Samples.no_file "fifo_sync.log"
  = Ok (([], default_metrics),
        [Stdout "Warning: Log file not found: fifo_sync.log"]).
Proof.
  exact (proj1 (missing_log_defaults Samples.no_file "fifo_sync.log" eq_refl)).
Defined.




End ParserClaims.

(** ** analyze_performance.py: the report *)

Module ReportFacts.

Import Py Env Spec AnalyzePerformance.

Lemma count_passed_le (tests : list TestResult) :
  0 <= count_passed tests <= len tests.
Proof.
  unfold count_passed, len. pose proof (filter_length_le passed tests). lia.
Qed.

(** All the tests are counted as passed exactly when each one passed. *)
Lemma count_passed_all (tests : list TestResult) :
  count_passed tests = len tests <-> Forall (fun t => passed t = true) tests.
Proof.
  unfold count_passed, len. induction tests as [| t tests IH]; simpl.
  - split; [constructor | reflexivity].
  - pose proof (filter_length_le passed tests) as Hle.
    destruct (passed t) eqn:E; simpl.
    + split.
      * intros H. constructor; [exact E |]. apply IH. lia.
      * intros H. inversion H; subst. apply IH in H3. lia.
    + split; [lia |]. intros H. inversion H; subst. congruence.
Qed.

Lemma len_pos (t : TestResult) (tests : list TestResult) :
  0 < len (t :: tests).
Proof. unfold len. simpl List.length. lia. Qed.

(** The summary under a non-empty list shows the floor of the rate; an
    empty list has no block, and no division takes place. *)
Lemma test_block_lines (tests : list TestResult) :
  test_block tests = Ok (test_lines tests).
Proof.
  destruct tests as [| t tests]; [reflexivity |].
  unfold test_block, test_lines, summary_line, pass_rate.
  pose proof (len_pos t tests) as Hpos.
  rewrite PyFacts.floordiv_nonzero by lia. cbn [bind].
  destruct (len (t :: tests) =? 0) eqn:E; [apply Z.eqb_eq in E; lia |].
  reflexivity.
Qed.

(** The metrics block of the first dataset: absent without writes, an
    error for a depth of zero, five lines and the throughput otherwise. *)
Lemma sync_metrics_block_lines (m : PerformanceMetrics) :
  sync_metrics_block m
  = if total_writes m >? 0 then
      if fifo_depth m =? 0 then Raise ZeroDivisionError
      else Ok (block_opening m +++ [ occupancy_line m ] +++ throughput_lines m)
    else Ok [].
Proof.
  unfold sync_metrics_block, floordiv, occupancy_line, occupancy_percent,
    block_opening.
  destruct (total_writes m >? 0); [| reflexivity].
  destruct (fifo_depth m =? 0); reflexivity.
Qed.

Lemma async_metrics_block_lines (m : PerformanceMetrics) :
  async_metrics_block m
  = if total_writes m >? 0 then block_opening m +++ throughput_lines m
    else [].
Proof. reflexivity. Qed.

(** The lines of a report, section by section: the only step that can
    fail is the metrics block of the first dataset. *)
Lemma report_lines_sections (now : string)
      (sync_tests async_tests : list TestResult)
      (sync_metrics async_metrics : PerformanceMetrics) :
  report_lines now (sync_tests, sync_metrics) (async_tests, async_metrics)
  = sync_perf <- sync_metrics_block sync_metrics ;;
    Ok (layout now sync_tests async_tests sync_metrics async_metrics
               sync_perf (async_metrics_block async_metrics)).
Proof.
  unfold report_lines. rewrite !test_block_lines. cbn [bind].
  destruct (sync_metrics_block sync_metrics); reflexivity.
Qed.

(** A report that is produced ends with the status block and a rule. *)
Lemma report_end (now : string)
      (sync_tests async_tests : list TestResult)
      (sync_metrics async_metrics : PerformanceMetrics) (lines : list string) :
  report_lines now (sync_tests, sync_metrics) (async_tests, async_metrics)
  = Ok lines ->
  exists body,
    lines = body +++ overall_status sync_tests async_tests +++ [ rule "=" ].
Proof.
  rewrite report_lines_sections.
  destruct (sync_metrics_block sync_metrics) as [sp | e]; cbn [bind];
    [| discriminate].
  intros H. injection H as <-. unfold layout.
  exists (title_lines now
            +++ heading "SYNCHRONOUS FIFO RESULTS"
            +++ test_lines sync_tests +++ sp
            +++ [ "" ]
            +++ heading "ASYNCHRONOUS FIFO RESULTS"
            +++ test_lines async_tests +++ async_metrics_block async_metrics
            +++ [ "" ]
            +++ heading "COMPARISON SUMMARY"
            +++ [ "" ]
            +++ comparison_lines sync_tests async_tests
                  sync_metrics async_metrics
            +++ [ "" ; rule "=" ]).
  repeat rewrite <- app_assoc. reflexivity.
Qed.

Lemma all_passed_spec (sync_tests async_tests : list TestResult) :
  all_passed sync_tests async_tests = true
  <-> sync_tests <> [] /\ async_tests <> []
      /\ Forall (fun t => passed t = true) sync_tests
      /\ Forall (fun t => passed t = true) async_tests.
Proof.
  unfold all_passed. rewrite !andb_true_iff, !Z.eqb_eq.
  rewrite <- !count_passed_all.
  destruct sync_tests as [| s ss], async_tests as [| a aa];
    unfold total_tests, tests_passed.
  - split; [intros [_ H]; discriminate H | intros [H _]; contradiction].
  - split; [intros [[_ H] _]; discriminate H | intros [H _]; contradiction].
  - split; [intros [_ H]; discriminate H | intros [_ [H _]]; contradiction].
  - pose proof (len_pos s ss). pose proof (len_pos a aa).
    split.
    + intros [[[H1 H2] _] _]. repeat split; try discriminate; assumption.
    + intros [_ [_ [H1 H2]]].
      repeat split; try assumption; apply PyFacts.gtb_true; lia.
Qed.

Lemma no_data_spec (sync_tests async_tests : list TestResult) :
  (total_tests sync_tests =? 0) && (total_tests async_tests =? 0) = true
  <-> sync_tests = [] /\ async_tests = [].
Proof.
  rewrite andb_true_iff, !Z.eqb_eq.
  destruct sync_tests as [| s ss], async_tests as [| a aa];
    unfold total_tests.
  - split; intros _; split; reflexivity.
  - pose proof (len_pos a aa) as Hp.
    split; [intros [_ H]; lia | intros [_ H]; discriminate H].
  - pose proof (len_pos s ss) as Hp.
    split; [intros [H _]; lia | intros [H _]; discriminate H].
  - pose proof (len_pos s ss) as Hp.
    split; [intros [H _]; lia | intros [H _]; discriminate H].
Qed.

End ReportFacts.

Module ReportClaims.

Import Py Env Spec AnalyzePerformance.

(** With a non-zero depth the occupancy shown is the floor of
    [peak * 100 / depth]. *)
Lemma occupancy_shown (m : PerformanceMetrics) :
  0 < total_writes m -> fifo_depth m <> 0 ->
  sync_metrics_block m
  = Ok (block_opening m +++ [ occupancy_line m ] +++ throughput_lines m)
  /\ occupancy_percent (peak_occupancy m) (fifo_depth m)
     = peak_occupancy m * 100 / fifo_depth m.
Proof.
  intros Hw Hd. rewrite ReportFacts.sync_metrics_block_lines.
  unfold occupancy_percent.
  destruct (total_writes m >? 0) eqn:Ew; [| apply PyFacts.gtb_false in Ew; lia].
  destruct (fifo_depth m =? 0) eqn:Ed; [apply Z.eqb_eq in Ed; contradiction |].
  split; reflexivity.
Qed.

Example occupancy_12_of_16 : occupancy_percent 12 16 = 75.
Proof. reflexivity. Qed.

(** A depth of zero, with writes, makes the whole report fail. *)
Lemma zero_depth_raises (now : string)
      (sync_tests async_tests : list TestResult)
      (sync_metrics async_metrics : PerformanceMetrics)
      (output_file : option path) :
  0 < total_writes sync_metrics -> fifo_depth sync_metrics = 0 ->
  generate_report now (sync_tests, sync_metrics) (async_tests, async_metrics)
                  output_file
  = Raise ZeroDivisionError.
Proof.
  intros Hw Hd. unfold generate_report.
  rewrite ReportFacts.report_lines_sections,
    ReportFacts.sync_metrics_block_lines, Hd.
  destruct (total_writes sync_metrics >? 0) eqn:Ew;
    [reflexivity | apply PyFacts.gtb_false in Ew; lia].
Qed.

(** C1.  The log [zero_depth_log] holds the lines [Total Writes: 5] and
    [Peak Occupancy: 0/0].  The parser returns metrics with depth zero,
    and the report generator raises a division error on them, where the
    occupancy percentage is specified to be 0. *)
Theorem zero_depth_report_fails (now : string) :
  exists m,
    parse_sync_log (Samples.one_file "fifo_sync.log" Samples.zero_depth_log)
                   "fifo_sync.log" = Ok (([], m), [])
    /\ total_writes m = 5 /\ peak_occupancy m = 0 /\ fifo_depth m = 0
    /\ generate_report now ([], m) ([], default_metrics) None
       = Raise ZeroDivisionError
    /\ occupancy_percent (peak_occupancy m) (fifo_depth m) = 0.
Proof.
  eexists. split; [vm_compute; reflexivity |].
  repeat split; try reflexivity.
Qed.

(** The three cases of the status line, which exclude one another. *)
Lemma status_cases (sync_tests async_tests : list TestResult) :
  let status := hd EmptyString (overall_status sync_tests async_tests) in
  let no_data := sync_tests = [] /\ async_tests = [] in
  let all_pass := sync_tests <> [] /\ async_tests <> []
                  /\ Forall (fun t => passed t = true) sync_tests
                  /\ Forall (fun t => passed t = true) async_tests in
  (status = "OVERALL STATUS: NO SIMULATION DATA FOUND" <-> no_data)
  /\ (status = "OVERALL STATUS: ALL TESTS PASSED" <-> all_pass)
  /\ (status = "OVERALL STATUS: SOME TESTS FAILED"
      <-> ~ no_data /\ ~ all_pass).
Proof.
  cbv zeta.
  pose proof (ReportFacts.all_passed_spec sync_tests async_tests) as Ha.
  pose proof (ReportFacts.no_data_spec sync_tests async_tests) as Hn.
  unfold overall_status.
  destruct (all_passed sync_tests async_tests) eqn:Ea.
  - assert (~ (sync_tests = [] /\ async_tests = [])) as Hd.
    { intros [C _]. apply proj1 in Ha. destruct (Ha eq_refl) as [C' _].
      contradiction. }
    cbn [hd]. split; [| split].
    + split; [discriminate | intros C; contradiction].
    + split; intros _; [apply Ha |]; reflexivity.
    + split; [discriminate |]. intros [_ C]. exfalso. apply C, Ha. reflexivity.
  - assert (~ (sync_tests <> [] /\ async_tests <> []
               /\ Forall (fun t => passed t = true) sync_tests
               /\ Forall (fun t => passed t = true) async_tests)) as Hp.
    { intros C. apply Ha in C. discriminate C. }
    destruct ((total_tests sync_tests =? 0) && (total_tests async_tests =? 0))
      eqn:En; cbn [hd]; (split; [| split]).
    + split; intros _; [apply Hn |]; reflexivity.
    + split; [discriminate | intros C; contradiction].
    + split; [discriminate |]. intros [C _]. exfalso. apply C, Hn. reflexivity.
    + split; [discriminate |]. intros C. apply Hn in C. discriminate C.
    + split; [discriminate | intros C; contradiction].
    + split; intros _; [| reflexivity]. split; [| exact Hp].
      intros C. apply Hn in C. discriminate C.
Qed.

(** C2.  The status line of a report, the first line of its closing
    block, is NO SIMULATION DATA FOUND exactly when both test lists are
    empty, ALL TESTS PASSED exactly when both are non-empty and every
    test of both passed, and SOME TESTS FAILED in every other case; and
    every report that is produced ends with that block and a rule. *)
Theorem overall_status_selection (now : string)
        (sync_tests async_tests : list TestResult)
        (sync_metrics async_metrics : PerformanceMetrics) :
  let status := hd EmptyString (overall_status sync_tests async_tests) in
  let no_data := sync_tests = [] /\ async_tests = [] in
  let all_pass := sync_tests <> [] /\ async_tests <> []
                  /\ Forall (fun t => passed t = true) sync_tests
                  /\ Forall (fun t => passed t = true) async_tests in
  (status = "OVERALL STATUS: NO SIMULATION DATA FOUND" <-> no_data)
  /\ (status = "OVERALL STATUS: ALL TESTS PASSED" <-> all_pass)
  /\ (status = "OVERALL STATUS: SOME TESTS FAILED"
      <-> ~ no_data /\ ~ all_pass)
  /\ (forall lines,
        report_lines now (sync_tests, sync_metrics)
                     (async_tests, async_metrics) = Ok lines ->
        exists body,
          lines = body +++ overall_status sync_tests async_tests
                       +++ [ rule "=" ]).
Proof.
  cbv zeta.
  destruct (status_cases sync_tests async_tests) as [H1 [H2 H3]].
  split; [exact H1 | split; [exact H2 | split; [exact H3 |]]].
  apply ReportFacts.report_end.
Qed.

(** A log with reads and no writes: a counter is non-zero and the
    report has no metrics block. *)
Lemma reads_without_writes_no_block :
  exists m lines,
    parse_sync_log (Samples.one_file "fifo_sync.log" Samples.reads_only_log)
                   "fifo_sync.log" = Ok (([], m), [])
    /\ total_reads m = 5
    /\ report_lines "2026-01-01 00:00:00" ([], m) ([], default_metrics)
       = Ok lines
    /\ ~ In "Performance Metrics:" lines.
Proof.
  eexists _, _. split; [vm_compute; reflexivity |].
  split; [reflexivity |]. split; [vm_compute; reflexivity |].
  intros H. cbv [In] in H.
  repeat (destruct H as [H | H]; [discriminate H |]). exact H.
Qed.

(** C9, amended.  A report is produced unless the first dataset has
    writes and a depth of zero.  In it the section of a dataset holds a
    performance metrics block exactly when the total_writes counter of
    that dataset is positive.  A block opens with an empty line, the
    heading and the Total Writes and Total Reads lines and closes with
    the Throughput line, present exactly when the throughput is
    positive; the block of the first dataset holds the Peak Occupancy
    line in between. *)
Theorem metrics_block_gate (now : string)
        (sync_tests async_tests : list TestResult)
        (sync_metrics async_metrics : PerformanceMetrics) :
  total_writes sync_metrics <= 0 \/ fifo_depth sync_metrics <> 0 ->
  exists sync_perf,
    sync_metrics_block sync_metrics = Ok sync_perf
    /\ report_lines now (sync_tests, sync_metrics) (async_tests, async_metrics)
       = Ok (layout now sync_tests async_tests sync_metrics async_metrics
                    sync_perf (async_metrics_block async_metrics))
    /\ (sync_perf = [] <-> total_writes sync_metrics <= 0)
    /\ (async_metrics_block async_metrics = []
        <-> total_writes async_metrics <= 0)
    /\ (0 < total_writes sync_metrics ->
        exists extra,
          sync_perf = block_opening sync_metrics +++ extra
                        +++ throughput_lines sync_metrics
          /\ In (occupancy_line sync_metrics) extra)
    /\ (0 < total_writes async_metrics ->
        exists extra,
          async_metrics_block async_metrics
          = block_opening async_metrics +++ extra
              +++ throughput_lines async_metrics)
    /\ (forall m,
          throughput_lines m
          = if gt_zero (throughput_mbps m)
            then [ "  Throughput:      " ++ fmt_2f (throughput_mbps m)
                     ++ " MB/s" ]
            else []).
Proof.
  intros Hok.
  rewrite ReportFacts.report_lines_sections,
    ReportFacts.sync_metrics_block_lines,
    ReportFacts.async_metrics_block_lines.
  assert (forall m : PerformanceMetrics,
             (if total_writes m >? 0
              then block_opening m +++ throughput_lines m else [])
             = [] <-> total_writes m <= 0) as Hasync.
  { intros m. destruct (total_writes m >? 0) eqn:E.
    - apply PyFacts.gtb_true in E. split; [discriminate | lia].
    - apply PyFacts.gtb_false in E. split; [intros _; exact E | reflexivity]. }
  assert (forall m : PerformanceMetrics,
             0 < total_writes m ->
             exists extra,
               (if total_writes m >? 0
                then block_opening m +++ throughput_lines m else [])
               = block_opening m +++ extra +++ throughput_lines m) as Hshape.
  { intros m Hw. exists []. apply PyFacts.gtb_true in Hw. now rewrite Hw. }
  destruct (total_writes sync_metrics >? 0) eqn:Ew.
  - apply PyFacts.gtb_true in Ew.
    destruct (fifo_depth sync_metrics =? 0) eqn:Ed.
    + apply Z.eqb_eq in Ed. destruct Hok as [C | C]; [lia | contradiction].
    + eexists. split; [reflexivity |]. split; [reflexivity |].
      split; [split; [discriminate | lia] |].
      split; [apply Hasync |]. split; [| split; [apply Hshape | reflexivity]].
      intros _. exists [ occupancy_line sync_metrics ].
      split; [reflexivity | now left].
  - apply PyFacts.gtb_false in Ew.
    exists []. split; [reflexivity |]. split; [reflexivity |].
    split; [split; [intros _; exact Ew | reflexivity] |].
    split; [apply Hasync |]. split; [| split; [apply Hshape | reflexivity]].
    intros C. lia.
Qed.

Lemma metrics_block_gate_witness :
  (total_writes Samples.busy_metrics <= 0
   \/ fifo_depth Samples.busy_metrics <> 0)
  /\ exists sync_perf,
       sync_metrics_block Samples.busy_metrics = Ok sync_perf
       /\ In (occupancy_line Samples.busy_metrics) sync_perf.
Proof.
  assert (total_writes Samples.busy_metrics <= 0
          \/ fifo_depth Samples.busy_metrics <> 0) as H
      by (right; discriminate).
  split; [exact H |].
  destruct (metrics_block_gate "2026-01-01 00:00:00" [] []
              Samples.busy_metrics default_metrics H)
    as [sp [H1 [_ [_ [_ [H2 _]]]]]].
  exists sp. split; [exact H1 |].
  destruct (H2 ltac:(cbn; lia)) as [extra [-> Hin]].
  apply in_or_app. right. apply in_or_app. left. exact Hin.
Defined.

End ReportClaims.

(** ** check_coverage.py *)

Module CoverageFacts.

Import Py Env Spec CheckCoverage.

Lemma collect_executed_fold (ms : list (string * string * string)) :
  collect_executed ms = fold_left record_step ms [].
Proof.
  unfold collect_executed. generalize (@nil (string * bool)).
  induction ms as [| [[num nm] v] ms IH]; intros d; simpl; [reflexivity |].
  apply IH.
Qed.


Lemma fold_record_get (k : string) (ms : list (string * string * string))
      (d : dict bool) :
  dict_get k (fold_left record_step ms d)
  = fold_left (fun acc m => if String.eqb (key_of m) k
                            then Some (outcome_of m) else acc)
              ms (dict_get k d).
Proof.
  revert d. induction ms as [| m ms IH]; intros d; simpl; [reflexivity |].
  rewrite IH. unfold record_step at 1. rewrite PyFacts.dict_get_set.
  reflexivity.
Qed.


(** An entry holds the outcome of the last line recorded under its key. *)
Lemma collect_executed_get (k : string) (ms : list (string * string * string)) :
  dict_get k (collect_executed ms) = last_outcome k ms.
Proof.
  rewrite collect_executed_fold, fold_record_get. reflexivity.
Qed.


Lemma last_outcome_none (k : string) (ms : list (string * string * string)) :
  Forall (fun x => key_of x <> k) ms -> last_outcome k ms = None.
Proof.
  intros H. unfold last_outcome.
  induction H as [| x ms Hx _ IH]; cbn [fold_left]; [reflexivity |].
  apply String.eqb_neq in Hx. now rewrite Hx.
Qed.

(** The steps of the matcher: the case-folded description first, then
    the first entry in the order of the record that passes the
    substring test, and no change when neither applies. *)
Lemma update_exact (d : dict bool) (t : TestScenario) (p : bool) :
  dict_get (lower (description t)) d = Some p -> update d t = mark p t.
Proof. intros H. unfold update. now rewrite H. Qed.

Lemma update_first_alternative (t : TestScenario)
      (before after : dict bool) (k : string) (p : bool) :
  dict_get (lower (description t)) (before ++ (k, p) :: after)%list = None ->
  Forall (fun e => alternative t e = false) before ->
  alternative t (k, p) = true ->
  update (before ++ (k, p) :: after)%list t = mark p t.
Proof.
  intros Hexact Hbefore Hhere. unfold update. rewrite Hexact.
  now rewrite (PyFacts.find_after _ before after (k, p) Hbefore Hhere).
Qed.

Lemma update_unmatched (d : dict bool) (t : TestScenario) :
  dict_get (lower (description t)) d = None ->
  Forall (fun e => alternative t e = false) d ->
  update d t = t.
Proof.
  intros Hexact Hall. unfold update. rewrite Hexact.
  now rewrite (PyFacts.find_nowhere _ d Hall).
Qed.



(** The guarded percentage is the specified rate. *)
Lemma percent_rate (a b : Z) : 0 <= b -> percent a b = Ok (pass_rate a b).
Proof.
  intros Hb. unfold percent, pass_rate, floordiv.
  destruct (b >? 0) eqn:E.
  - apply PyFacts.gtb_true in E.
    destruct (b =? 0) eqn:E0; [apply Z.eqb_eq in E0; lia | reflexivity].
  - apply PyFacts.gtb_false in E.
    assert (b = 0) as -> by lia. reflexivity.
Qed.

End CoverageFacts.

Module CoverageClaims.

Import Py Env Spec CheckCoverage.

(** C4.  The log [check_log] holds one result, named Reset Behavior
    Check.  For the scenario of the task [test_Reset_Behavior] the
    case-folded description is no recorded name, and the case-folded
    plain name is a substring of the recorded name; the matcher compares
    the plain name as written, finds no substring and leaves the
    scenario not executed. *)
Theorem alternative_keeps_capitals :
  let t := Samples.scenario "test_Reset_Behavior" "Reset Behavior" in
  let executed_tests :=
    collect_executed (Re.finditer Re.test_result Samples.check_log) in
  executed_tests = [("reset behavior check", true)]
  /\ dict_get (lower (description t)) executed_tests = None
  /\ plain_name t = "Reset Behavior"
  /\ contains (lower (plain_name t)) "reset behavior check" = true
  /\ alternative t ("reset behavior check", true) = false
  /\ check_test_execution
       (Samples.one_file "fifo_sync.log" Samples.check_log)
       "fifo_sync.log" [t] = [t].
Proof. cbv zeta. repeat split; vm_compute; reflexivity. Qed.

(** With a task name in small letters the same result is found, and of
    two recorded names that both contain the plain name the first in
    the order of the record is taken. *)
Example first_candidate_taken :
  let t := Samples.scenario "test_reset_behavior" "Reset Behavior" in
  collect_executed (Re.finditer Re.test_result Samples.two_candidates_log)
  = [("full reset behavior", false); ("reset behavior check", true)]
  /\ check_test_execution
       (Samples.one_file "fifo_sync.log" Samples.two_candidates_log)
       "fifo_sync.log" [t] = [mark false t].
Proof. cbv zeta. split; vm_compute; reflexivity. Qed.



End CoverageClaims.

(** ** The pass rate of both reports *)

Module PassRateClaims.

Import Py Env Spec.



End PassRateClaims.

(** ** analyze_synthesis.py and synthesis_summary.py *)

Module SynthesisFacts.

Import Py Env Spec.

(** A loop that adds the counts of the cells passing a test. *)
Lemma sum_loop (p : string -> bool) (cells : dict Z) (start : Z) :
  fold_left (fun acc '(cell_type, count) =>
               if p cell_type then acc + count else acc) cells start
  = start + sum_where p cells.
Proof.
  revert start. induction cells as [| [n c] cells IH]; intros start; simpl.
  - lia.
  - rewrite IH. destruct (p n); lia.
Qed.

Lemma count_cells_from (cells : dict Z) (r : AnalyzeSynthesis.Resources) :
  fold_left AnalyzeSynthesis.count_cell cells r
  = {| AnalyzeSynthesis.logic_cells :=
         AnalyzeSynthesis.logic_cells r
         + sum_where (contains_any AnalyzeSynthesis.logic_names) cells;
       AnalyzeSynthesis.flip_flops :=
         AnalyzeSynthesis.flip_flops r + sum_where is_flip_flop cells;
       AnalyzeSynthesis.muxes :=
         AnalyzeSynthesis.muxes r + sum_where (contains "MUX") cells;
       AnalyzeSynthesis.memory_bits := AnalyzeSynthesis.memory_bits r;
       AnalyzeSynthesis.total_cells :=
         AnalyzeSynthesis.total_cells r + sum_where (fun _ => true) cells |}.
Proof.
  revert r. induction cells as [| [n c] cells IH]; intros r.
  - destruct r. cbn. f_equal; lia.
  - cbn [fold_left]. rewrite IH. unfold AnalyzeSynthesis.count_cell.
    cbn [AnalyzeSynthesis.logic_cells AnalyzeSynthesis.flip_flops
         AnalyzeSynthesis.muxes AnalyzeSynthesis.memory_bits
         AnalyzeSynthesis.total_cells sum_where fold_right].
    fold (is_flip_flop n).
    fold (sum_where (contains_any AnalyzeSynthesis.logic_names) cells).
    fold (sum_where is_flip_flop cells).
    fold (sum_where (contains "MUX") cells).
    fold (sum_where (fun _ : string => true) cells).
    destruct (contains_any AnalyzeSynthesis.logic_names n),
      (is_flip_flop n), (contains "MUX" n); f_equal; lia.
Qed.

Lemma float_of_100 :
  float_of_int 100 = Ok (S754_finite false 7036874417766400 (-46)).
Proof. vm_compute. reflexivity. Qed.

(** With a positive baseline the difference is a float or too large for
    one; the division by zero cannot occur. *)
Lemma scaled_quotient_cases (d b : Z) :
  b <> 0 ->
  (exists x, (q <- truediv d b ;; p <- mul_int q 100 ;; Ok (Float p))
             = Ok (Float x))
  \/ (q <- truediv d b ;; p <- mul_int q 100 ;; Ok (Float p))
     = Raise OverflowError.
Proof.
  intros Hb. unfold truediv, mul_int.
  destruct (b =? 0) eqn:E; [apply Z.eqb_eq in E; contradiction |].
  rewrite float_of_100.
  destruct (round_ratio (xorb (d <? 0) (b <? 0)) (Z.abs d) (Z.abs b));
    cbn [bind]; try (left; eexists; reflexivity).
  now right.
Qed.

End SynthesisFacts.

Module SynthesisClaims.

Import Py Env Spec.

(** C3.  Each class of [count_resources] adds the counts of the cell
    types whose name contains one of its substrings: DFF or FF for
    flip_flops, MUX for muxes, one of LUT, AND, OR, XOR, NOT, NAND, NOR
    for logic_cells, and every cell type for total_cells; [contains] is
    the substring relation.  The classes overlap: XORFF is counted under
    flip_flops and under logic_cells, and the classes then add up to
    more than total_cells. *)
Theorem classes_overlap :
  (forall r : AnalyzeSynthesis.Report,
      let res := AnalyzeSynthesis.count_resources (Some r) in
      let cells := AnalyzeSynthesis.cells r in
      AnalyzeSynthesis.total_cells res = sum_where (fun _ => true) cells
      /\ AnalyzeSynthesis.flip_flops res
         = sum_where (fun n => contains "DFF" n || contains "FF" n) cells
      /\ AnalyzeSynthesis.muxes res = sum_where (contains "MUX") cells
      /\ AnalyzeSynthesis.logic_cells res
         = sum_where (contains_any
                        ["LUT"; "AND"; "OR"; "XOR"; "NOT"; "NAND"; "NOR"])
                     cells)
  /\ (forall needle hay,
        contains needle hay = true
        <-> exists before after, hay = before ++ needle ++ after)
  /\ (let res := AnalyzeSynthesis.count_resources
                   (Some (Samples.report [("XORFF", 3)])) in
      AnalyzeSynthesis.flip_flops res = 3
      /\ AnalyzeSynthesis.logic_cells res = 3
      /\ AnalyzeSynthesis.muxes res = 0
      /\ AnalyzeSynthesis.total_cells res = 3
      /\ AnalyzeSynthesis.total_cells res
         < AnalyzeSynthesis.flip_flops res + AnalyzeSynthesis.muxes res
           + AnalyzeSynthesis.logic_cells res).
Proof.
  split; [| split; [exact PyFacts.contains_spec |]].
  - intros r. cbv zeta. unfold AnalyzeSynthesis.count_resources.
    rewrite SynthesisFacts.count_cells_from.
    cbn [AnalyzeSynthesis.logic_cells AnalyzeSynthesis.flip_flops
         AnalyzeSynthesis.muxes AnalyzeSynthesis.total_cells
         AnalyzeSynthesis.no_resources].
    repeat split; reflexivity.
  - cbv zeta. vm_compute. repeat split; reflexivity.
Qed.

(** The counters of synthesis_summary.py: the flip-flop rule is the
    same; the logic list has XNOR and no LUT, and a cell type is added
    once however many names it contains; the multiplexer count is the
    entry of one cell type. *)
Lemma summary_counters (cells : dict Z) :
  SynthesisSummary.count_ffs cells
  = sum_where (fun n => contains "DFF" n || contains "FF" n) cells
  /\ SynthesisSummary.count_logic cells
     = sum_where (contains_any SynthesisSummary.logic_types) cells
  /\ SynthesisSummary.count_mux cells
     = match dict_get "$_MUX_" cells with Some n => n | None => 0 end.
Proof.
  unfold SynthesisSummary.count_ffs, SynthesisSummary.count_logic.
  rewrite !SynthesisFacts.sum_loop. repeat split.
Qed.



(** A negative baseline is no count; there the guard of the scripts and
    the one of the specification part. *)
Example negative_baseline :
  AnalyzeSynthesis.diff_pct (-4) 2 = Ok (Int 0)
  /\ percent_difference 2 (-4)
     = Ok (Float (S754_finite true 5277655813324800 (-45))).
Proof. split; vm_compute; reflexivity. Qed.

End SynthesisClaims.

(** * Further properties of the scripts *)

(** ** check_coverage.py: what the matcher keeps and what the report shows *)

Module CoverageExtras.

Import Py Env Spec CheckCoverage.

Lemma percent_in_range (a b : Z) :
  0 <= a <= b -> exists q, percent a b = Ok q /\ 0 <= q <= 100.
Proof.
  intros [Ha Hab]. rewrite CoverageFacts.percent_rate by lia.
  eexists. split; [reflexivity |]. unfold pass_rate.
  destruct (b =? 0) eqn:E; [lia |]. apply Z.eqb_neq in E.
  split.
  - apply Z.div_pos; lia.
  - apply Z.div_le_upper_bound; lia.
Qed.

Lemma count_le_len (p : TestScenario -> bool) (tests : list TestScenario) :
  0 <= count p tests <= len tests.
Proof.
  unfold count, len. pose proof (filter_length_le p tests). lia.
Qed.

Lemma coverage_section_ok (title : string) (tests : list TestScenario) :
  exists lines, coverage_section title tests = Ok lines.
Proof.
  unfold coverage_section.
  destruct (percent_in_range _ _ (count_le_len executed tests)) as [q [-> _]].
  cbn [bind]. eexists. reflexivity.
Qed.

Lemma coverage_total (sync_tests async_tests : list TestScenario) :
  exists report, generate_coverage_report sync_tests async_tests = Ok report.
Proof.
  unfold generate_coverage_report, coverage_lines.
  destruct (coverage_section_ok "SYNCHRONOUS FIFO COVERAGE" sync_tests) as [a ->].
  destruct (coverage_section_ok "ASYNCHRONOUS FIFO COVERAGE" async_tests) as [b ->].
  cbn [bind]. unfold summary_lines.
  pose proof (count_le_len executed sync_tests).
  pose proof (count_le_len executed async_tests).
  rewrite !CoverageFacts.percent_rate by (unfold len; lia).
  cbn [bind]. eexists. reflexivity.
Qed.

(** The coverage report is produced for every pair of scenario lists, the
    empty ones included: none of its four divisions can fail, and the
    coverage percentage of a section lies between 0 and 100. *)
Theorem coverage_report_never_fails (sync_tests async_tests : list TestScenario) :
  (exists report, generate_coverage_report sync_tests async_tests = Ok report)
  /\ (exists q,
        percent (count executed sync_tests) (len sync_tests) = Ok q
        /\ 0 <= q <= 100)
  /\ (exists q,
        percent (count executed async_tests) (len async_tests) = Ok q
        /\ 0 <= q <= 100).
Proof.
  split; [apply coverage_total | split; apply percent_in_range, count_le_len].
Qed.

Lemma filter_length_app {A : Type} (p : A -> bool) (l1 l2 : list A) :
  List.length (filter p (l1 ++ l2)%list)
  = (List.length (filter p l1) + List.length (filter p l2))%nat.
Proof. now rewrite filter_app, length_app. Qed.

Lemma passed_le_executed (tests : list TestScenario) :
  Forall (fun t => passed t = true -> executed t = true) tests ->
  count passed tests <= count executed tests.
Proof.
  unfold count. induction 1 as [| t tests Ht _ IH]; simpl; [lia |].
  destruct (passed t) eqn:P.
  - rewrite (Ht eq_refl). simpl List.length. lia.
  - destruct (executed t); simpl List.length; lia.
Qed.

(** When no scenario is marked passed without being marked executed, the
    pass rate of the summary lies between 0 and 100. *)
Theorem pass_rate_in_range (sync_tests async_tests : list TestScenario) :
  Forall (fun t => passed t = true -> executed t = true)
         (sync_tests ++ async_tests)%list ->
  exists q,
    percent (count passed (sync_tests ++ async_tests)%list)
            (count executed sync_tests + count executed async_tests) = Ok q
    /\ 0 <= q <= 100.
Proof.
  intros H. apply percent_in_range.
  pose proof (passed_le_executed _ H) as Hle.
  pose proof (count_le_len passed (sync_tests ++ async_tests)%list) as Hp.
  unfold count in *. rewrite !filter_length_app in *. lia.
Qed.

Lemma pass_rate_in_range_witness :
  exists q,
    percent (count passed [mark true (Samples.scenario "test_a" "A");
                           mark false (Samples.scenario "test_b" "B")])
            (count executed [mark true (Samples.scenario "test_a" "A")]
             + count executed [mark false (Samples.scenario "test_b" "B")])
    = Ok q /\ 0 <= q <= 100.
Proof.
  apply (pass_rate_in_range [mark true (Samples.scenario "test_a" "A")]
                            [mark false (Samples.scenario "test_b" "B")]).
  repeat constructor; discriminate.
Defined.

Lemma update_fields (d : dict bool) (t : TestScenario) :
  name (update d t) = name t
  /\ category (update d t) = category t
  /\ description (update d t) = description t
  /\ (executed t = true -> executed (update d t) = true)
  /\ (update d t = t \/ executed (update d t) = true).
Proof.
  unfold update.
  destruct (dict_get (lower (description t)) d) as [p |];
    [cbn; repeat split; auto |].
  destruct (find (alternative t) d) as [[k p] |]; cbn; repeat split; auto.
Qed.

(** The matcher returns one scenario for each scenario it is given, in the
    same order, with the same name, category and description; it never
    clears an executed mark, and a scenario it changes is marked
    executed.  Scenarios that are passed only if executed stay so. *)
Theorem matcher_keeps_scenarios (fs : files) (log_file : path)
        (tests : list TestScenario) :
  Forall2 (fun t t' =>
             name t' = name t /\ category t' = category t
             /\ description t' = description t
             /\ (executed t = true -> executed t' = true)
             /\ (t' = t \/ executed t' = true))
          tests (check_test_execution fs log_file tests)
  /\ (Forall (fun t => passed t = true -> executed t = true) tests ->
      Forall (fun t => passed t = true -> executed t = true)
             (check_test_execution fs log_file tests)).
Proof.
  unfold check_test_execution. destruct (fs log_file) as [content |].
  - set (d := collect_executed _). split.
    + induction tests as [| t tests IH]; simpl; constructor; [| exact IH].
      apply update_fields.
    + intros H. induction H as [| t tests Ht _ IH]; simpl; constructor;
        [| exact IH].
      destruct (update_fields d t) as [_ [_ [_ [_ [-> | He]]]]]; auto.
  - split; [| auto].
    induction tests as [| t tests IH]; constructor; [| exact IH].
    repeat split; auto.
Qed.

(** A mark leaves untouched what the matcher looks at. *)
Lemma update_mark (d : dict bool) (t : TestScenario) (p : bool) :
  update d (mark p t)
  = match dict_get (lower (description t)) d with
    | Some q => mark q t
    | None =>
        match find (alternative t) d with
        | Some (_, q) => mark q t
        | None => mark p t
        end
    end.
Proof.
  unfold update. cbn [description mark].
  change (alternative (mark p t)) with (alternative t).
  destruct (dict_get (lower (description t)) d); [reflexivity |].
  destruct (find (alternative t) d) as [[k q] |]; reflexivity.
Qed.

Lemma update_twice (d : dict bool) (t : TestScenario) :
  update d (update d t) = update d t.
Proof.
  unfold update at 2 3.
  destruct (dict_get (lower (description t)) d) as [p |] eqn:E.
  - rewrite update_mark. now rewrite E.
  - destruct (find (alternative t) d) as [[k p] |] eqn:F.
    + rewrite update_mark. now rewrite E, F.
    + unfold update. now rewrite E, F.
Qed.

(** Matching a second time against the same log changes nothing. *)
Theorem matcher_idempotent (fs : files) (log_file : path)
        (tests : list TestScenario) :
  check_test_execution fs log_file (check_test_execution fs log_file tests)
  = check_test_execution fs log_file tests.
Proof.
  unfold check_test_execution. destruct (fs log_file); [| reflexivity].
  rewrite map_map. apply map_ext. intros t. apply update_twice.
Qed.

Lemma contains_empty (s : string) : contains EmptyString s = true.
Proof. destruct s; reflexivity. Qed.

Lemma dict_get_some_in {V : Type} (k : string) (v : V) (d : dict V) :
  dict_get k d = Some v -> In (k, v) d.
Proof.
  induction d as [| [k0 v0] d IH]; simpl; [discriminate |].
  destruct (String.eqb k0 k) eqn:E.
  - apply String.eqb_eq in E. intros H. injection H as <-. subst. now left.
  - intros H. right. exact (IH H).
Qed.

Lemma find_some_exists {A : Type} (f : A -> bool) (l : list A) (x : A) :
  In x l -> f x = true -> exists y, find f l = Some y.
Proof.
  induction l as [| z l IH]; simpl; [contradiction |].
  intros Hin Hx. destruct (f z) eqn:E; [eexists; reflexivity |].
  destruct Hin as [-> | Hin]; [congruence | exact (IH Hin Hx)].
Qed.

(** A key that some line records has an outcome. *)
Lemma last_outcome_recorded (ms : list (string * string * string))
      (m : string * string * string) :
  In m ms -> exists b, last_outcome (key_of m) ms = Some b.
Proof.
  intros Hin. apply in_split in Hin as [before [after ->]].
  unfold last_outcome. rewrite fold_left_app. cbn [fold_left].
  rewrite String.eqb_refl. generalize (outcome_of m) as b.
  induction after as [| x after IH]; intros b; cbn [fold_left];
    [eexists; reflexivity |].
  destruct (String.eqb (key_of x) (key_of m)); apply IH.
Qed.

(** A result line whose name is blank is recorded under the empty name,
    which is a substring of every name: every scenario that is given is
    then marked executed, whatever it is called. *)
Theorem blank_name_marks_all (fs : files) (log_file : path) (content : string)
        (m : string * string * string) (tests : list TestScenario) :
  fs log_file = Some content ->
  In m (Re.finditer Re.test_result content) ->
  key_of m = EmptyString ->
  Forall (fun t => executed t = true) (check_test_execution fs log_file tests).
Proof.
  intros Hfile Hin Hkey. unfold check_test_execution. rewrite Hfile.
  destruct (last_outcome_recorded _ _ Hin) as [b Hb].
  rewrite Hkey, <- CoverageFacts.collect_executed_get in Hb.
  apply dict_get_some_in in Hb.
  apply Forall_forall. intros t' Ht'. apply in_map_iff in Ht' as [t [<- _]].
  unfold update.
  destruct (dict_get (lower (description t)) _); [reflexivity |].
  destruct (find_some_exists (alternative t) _ _ Hb) as [[k q] ->];
    [| reflexivity].
  unfold alternative. cbn [fst]. rewrite contains_empty. apply orb_true_r.
Qed.

Lemma blank_name_marks_all_witness :
  Forall (fun t => executed t = true)
         (check_test_execution
            (Samples.one_file "fifo_sync.log" MoreSamples.blank_name_log)
            "fifo_sync.log"
            [Samples.scenario "test_fill" "Fill";
             Samples.scenario "test_drain" "Drain"]).
Proof.
  apply (blank_name_marks_all
           (Samples.one_file "fifo_sync.log" MoreSamples.blank_name_log)
           "fifo_sync.log" MoreSamples.blank_name_log ("3", " ", "PASS")).
  - reflexivity.
  - vm_compute. now left.
  - reflexivity.
Defined.

End CoverageExtras.

(** ** analyze_synthesis.py and synthesis_summary.py: the counters *)

Module SynthesisExtras.

Import Py Env Spec.

Lemma append_assoc (a b c : string) : (a ++ b) ++ c = a ++ b ++ c.
Proof. induction a as [| x a IH]; simpl; [reflexivity | now rewrite IH]. Qed.

Lemma contains_trans (a b s : string) :
  contains a b = true -> contains b s = true -> contains a s = true.
Proof.
  rewrite !PyFacts.contains_spec.
  intros [x [y ->]] [u [v ->]]. exists (u ++ x), (y ++ v).
  now rewrite !append_assoc.
Qed.

Lemma orb_absorb (x y : bool) : (x = true -> y = true) -> x || y = y.
Proof. destruct x, y; intros H; try reflexivity. discriminate (H eq_refl). Qed.

(** The tests of the two scripts on a cell name, without the names that
    another name of the list is part of. *)
Lemma flip_flop_rule (n : string) : is_flip_flop n = contains "FF" n.
Proof.
  unfold is_flip_flop. apply orb_absorb.
  apply contains_trans. reflexivity.
Qed.

Lemma logic_rule (n : string) :
  contains_any AnalyzeSynthesis.logic_names n
  = contains_any ["LUT"; "AND"; "OR"; "NOT"] n.
Proof.
  unfold contains_any, AnalyzeSynthesis.logic_names. cbn [existsb].
  pose proof (contains_trans "OR" "XOR" n eq_refl) as H1.
  pose proof (contains_trans "AND" "NAND" n eq_refl) as H2.
  pose proof (contains_trans "OR" "NOR" n eq_refl) as H3.
  destruct (contains "LUT" n), (contains "AND" n), (contains "OR" n),
    (contains "XOR" n), (contains "NOT" n), (contains "NAND" n),
    (contains "NOR" n); try reflexivity;
    try discriminate (H1 eq_refl); try discriminate (H2 eq_refl);
    try discriminate (H3 eq_refl).
Qed.

Lemma summary_logic_rule (n : string) :
  contains_any SynthesisSummary.logic_types n
  = contains_any ["AND"; "OR"; "NOT"] n.
Proof.
  unfold contains_any, SynthesisSummary.logic_types. cbn [existsb].
  pose proof (contains_trans "OR" "XOR" n eq_refl) as H1.
  pose proof (contains_trans "AND" "NAND" n eq_refl) as H2.
  pose proof (contains_trans "OR" "NOR" n eq_refl) as H3.
  pose proof (contains_trans "OR" "XNOR" n eq_refl) as H4.
  destruct (contains "AND" n), (contains "OR" n),
    (contains "XOR" n), (contains "NOT" n), (contains "NAND" n),
    (contains "NOR" n), (contains "XNOR" n); try reflexivity;
    try discriminate (H1 eq_refl); try discriminate (H2 eq_refl);
    try discriminate (H3 eq_refl); try discriminate (H4 eq_refl).
Qed.

Lemma sum_where_ext (p q : string -> bool) (cells : dict Z) :
  Forall (fun c => p (fst c) = q (fst c)) cells ->
  sum_where p cells = sum_where q cells.
Proof.
  induction 1 as [| [n c] cells Hc _ IH]; simpl; [reflexivity |].
  simpl in Hc. rewrite Hc. fold (sum_where p cells). fold (sum_where q cells).
  now rewrite IH.
Qed.

Lemma sum_where_mono (p q : string -> bool) (cells : dict Z) :
  (forall n, p n = true -> q n = true) ->
  Forall (fun c => 0 <= snd c) cells ->
  0 <= sum_where p cells <= sum_where q cells.
Proof.
  intros Hpq. induction 1 as [| [n c] cells Hc _ IH]; simpl; [lia |].
  simpl in Hc. fold (sum_where p cells). fold (sum_where q cells).
  destruct (p n) eqn:P.
  - rewrite (Hpq n P). lia.
  - destruct (q n); lia.
Qed.

Lemma resources_of (r : AnalyzeSynthesis.Report) :
  AnalyzeSynthesis.count_resources (Some r)
  = {| AnalyzeSynthesis.logic_cells :=
         sum_where (contains_any AnalyzeSynthesis.logic_names)
                   (AnalyzeSynthesis.cells r);
       AnalyzeSynthesis.flip_flops :=
         sum_where is_flip_flop (AnalyzeSynthesis.cells r);
       AnalyzeSynthesis.muxes :=
         sum_where (contains "MUX") (AnalyzeSynthesis.cells r);
       AnalyzeSynthesis.memory_bits := 0;
       AnalyzeSynthesis.total_cells :=
         sum_where (fun _ => true) (AnalyzeSynthesis.cells r) |}.
Proof.
  unfold AnalyzeSynthesis.count_resources.
  rewrite SynthesisFacts.count_cells_from. reflexivity.
Qed.

(** With counts that are not negative, no class of [count_resources]
    exceeds total_cells and none is negative; memory_bits is never
    counted and stays 0. *)
Theorem classes_within_total (r : AnalyzeSynthesis.Report) :
  Forall (fun c => 0 <= snd c) (AnalyzeSynthesis.cells r) ->
  let res := AnalyzeSynthesis.count_resources (Some r) in
  0 <= AnalyzeSynthesis.flip_flops res <= AnalyzeSynthesis.total_cells res
  /\ 0 <= AnalyzeSynthesis.muxes res <= AnalyzeSynthesis.total_cells res
  /\ 0 <= AnalyzeSynthesis.logic_cells res <= AnalyzeSynthesis.total_cells res
  /\ AnalyzeSynthesis.memory_bits res = 0.
Proof.
  intros H. cbv zeta. rewrite resources_of.
  cbn [AnalyzeSynthesis.logic_cells AnalyzeSynthesis.flip_flops
       AnalyzeSynthesis.muxes AnalyzeSynthesis.total_cells
       AnalyzeSynthesis.memory_bits].
  pose proof (sum_where_mono is_flip_flop (fun _ => true) _
                (fun _ _ => eq_refl) H).
  pose proof (sum_where_mono (contains "MUX") (fun _ => true) _
                (fun _ _ => eq_refl) H).
  pose proof (sum_where_mono (contains_any AnalyzeSynthesis.logic_names)
                (fun _ => true) _ (fun _ _ => eq_refl) H).
  repeat split; lia.
Qed.

Lemma classes_within_total_witness :
  let res := AnalyzeSynthesis.count_resources
               (Some (Samples.report [("XORFF", 3); ("SB_LUT4", 4)])) in
  0 <= AnalyzeSynthesis.flip_flops res <= AnalyzeSynthesis.total_cells res.
Proof.
  apply (classes_within_total (Samples.report [("XORFF", 3); ("SB_LUT4", 4)])).
  repeat constructor; cbn; lia.
Defined.

(** The classes depend on four names only: a cell type is a flip-flop
    exactly when its name contains FF, and a logic cell exactly when it
    contains LUT, AND, OR or NOT; the entries DFF, XOR, NAND and NOR of
    the lists add nothing. *)
Theorem classes_by_short_names (r : AnalyzeSynthesis.Report) :
  let res := AnalyzeSynthesis.count_resources (Some r) in
  AnalyzeSynthesis.flip_flops res
  = sum_where (contains "FF") (AnalyzeSynthesis.cells r)
  /\ AnalyzeSynthesis.logic_cells res
     = sum_where (contains_any ["LUT"; "AND"; "OR"; "NOT"])
                 (AnalyzeSynthesis.cells r).
Proof.
  cbv zeta. rewrite resources_of.
  cbn [AnalyzeSynthesis.logic_cells AnalyzeSynthesis.flip_flops].
  split; apply sum_where_ext, Forall_forall; intros c _.
  - apply flip_flop_rule.
  - apply logic_rule.
Qed.

(** The flip-flop count of synthesis_summary.py is the one of
    analyze_synthesis.py on the same cells; the logic counts agree when
    no cell name contains LUT. *)
Theorem counters_agree (r : AnalyzeSynthesis.Report) :
  Forall (fun c => contains "LUT" (fst c) = false) (AnalyzeSynthesis.cells r) ->
  let res := AnalyzeSynthesis.count_resources (Some r) in
  SynthesisSummary.count_ffs (AnalyzeSynthesis.cells r)
  = AnalyzeSynthesis.flip_flops res
  /\ SynthesisSummary.count_logic (AnalyzeSynthesis.cells r)
     = AnalyzeSynthesis.logic_cells res.
Proof.
  intros H. cbv zeta. rewrite resources_of.
  cbn [AnalyzeSynthesis.logic_cells AnalyzeSynthesis.flip_flops].
  unfold SynthesisSummary.count_ffs, SynthesisSummary.count_logic.
  rewrite !SynthesisFacts.sum_loop. split; [reflexivity |].
  rewrite Z.add_0_l. apply sum_where_ext.
  apply Forall_forall. intros c Hc.
  rewrite summary_logic_rule, logic_rule.
  unfold contains_any. cbn [existsb].
  rewrite Forall_forall in H. now rewrite (H c Hc).
Qed.

Lemma counters_agree_witness :
  SynthesisSummary.count_logic [("$_XNOR_", 3); ("$_DFF_P_", 4); ("$_MUX_", 2)]
  = AnalyzeSynthesis.logic_cells
      (AnalyzeSynthesis.count_resources
         (Some (Samples.report
                  [("$_XNOR_", 3); ("$_DFF_P_", 4); ("$_MUX_", 2)]))).
Proof.
  apply (counters_agree
           (Samples.report [("$_XNOR_", 3); ("$_DFF_P_", 4); ("$_MUX_", 2)])).
  repeat constructor.
Defined.

(** With counts that are not negative, the logic and multiplexer counts
    of synthesis_summary.py are at most those of analyze_synthesis.py:
    its logic list lacks LUT, and it takes the multiplexers from the one
    cell type [$_MUX_]. *)
Theorem summary_counts_below (r : AnalyzeSynthesis.Report) :
  Forall (fun c => 0 <= snd c) (AnalyzeSynthesis.cells r) ->
  let res := AnalyzeSynthesis.count_resources (Some r) in
  0 <= SynthesisSummary.count_logic (AnalyzeSynthesis.cells r)
    <= AnalyzeSynthesis.logic_cells res
  /\ 0 <= SynthesisSummary.count_mux (AnalyzeSynthesis.cells r)
       <= AnalyzeSynthesis.muxes res.
Proof.
  intros H. cbv zeta. rewrite resources_of.
  cbn [AnalyzeSynthesis.logic_cells AnalyzeSynthesis.muxes].
  split.
  - unfold SynthesisSummary.count_logic. rewrite SynthesisFacts.sum_loop.
    rewrite Z.add_0_l. apply sum_where_mono; [| exact H].
    intros n. rewrite summary_logic_rule, logic_rule.
    unfold contains_any. cbn [existsb]. intros ->. apply orb_true_r.
  - unfold SynthesisSummary.count_mux.
    generalize (AnalyzeSynthesis.cells r) H. clear.
    induction 1 as [| [n c] cells Hc Hcs IH]; simpl; [lia |].
    simpl in Hc. fold (sum_where (contains "MUX") cells).
    pose proof (sum_where_mono (contains "MUX") (fun _ => true) cells
                  (fun _ _ => eq_refl) Hcs) as [Hs _].
    destruct (String.eqb n "$_MUX_") eqn:E.
    + apply String.eqb_eq in E. subst n.
      change (contains "MUX" "$_MUX_") with true. cbv iota. lia.
    + destruct (contains "MUX" n); lia.
Qed.

Lemma summary_counts_below_witness :
  0 <= SynthesisSummary.count_mux [("SB_MUX2", 3); ("$_MUX_", 2)]
    <= AnalyzeSynthesis.muxes
         (AnalyzeSynthesis.count_resources
            (Some (Samples.report [("SB_MUX2", 3); ("$_MUX_", 2)]))).
Proof.
  apply (summary_counts_below (Samples.report [("SB_MUX2", 3); ("$_MUX_", 2)])).
  repeat constructor; cbn; lia.
Defined.

(** Equal counts are shown with a difference of [+0] and [+0.0%] by both
    scripts, whatever the count. *)
Theorem equal_counts_row (label : string) (n : Z) :
  AnalyzeSynthesis.comparison_row label n n
  = Ok (ljust 25 label ++ " " ++ rjust 12 (str n) ++ " " ++ rjust 12 (str n)
          ++ "     +0 (  +0.0%)")
  /\ SynthesisSummary.print_row label n n
     = Ok (ljust 25 label ++ " " ++ rjust 12 (str n) ++ " " ++ rjust 12 (str n)
             ++ "     +0 ( +0.0%)").
Proof.
  unfold AnalyzeSynthesis.comparison_row, SynthesisSummary.print_row,
    AnalyzeSynthesis.diff_pct, SynthesisSummary.diff_pct.
  rewrite Z.sub_diag.
  destruct (n >? 0) eqn:E.
  - apply PyFacts.gtb_true in E. unfold truediv.
    destruct (n =? 0) eqn:E0; [apply Z.eqb_eq in E0; lia |].
    assert ((n <? 0) = false) as -> by (apply Z.ltb_ge; lia).
    split; reflexivity.
  - split; reflexivity.
Qed.

End SynthesisExtras.

(** ** analyze_performance.py and plot_results.py: the two readers and the
    entry point *)

Module ParserExtras.

Import Py Env Spec Terms AnalyzePerformance.

Lemma rstrip_cons (c : ascii) (s : string) :
  rstrip (String c s)
  = match rstrip s with
    | EmptyString => if isspace c then EmptyString else String c EmptyString
    | r => String c r
    end.
Proof. reflexivity. Qed.

Lemma rstrip_rstrip (s : string) : rstrip (rstrip s) = rstrip s.
Proof.
  induction s as [| c s IH]; [reflexivity |].
  rewrite rstrip_cons. destruct (rstrip s) as [| d r] eqn:E.
  - destruct (isspace c) eqn:Ec; [reflexivity |].
    rewrite rstrip_cons. cbn [rstrip]. now rewrite Ec.
  - rewrite rstrip_cons, IH. reflexivity.
Qed.

Lemma lstrip_head (s : string) :
  lstrip s = EmptyString
  \/ exists c r, lstrip s = String c r /\ isspace c = false.
Proof.
  induction s as [| c s IH]; [now left |].
  cbn [lstrip]. destruct (isspace c) eqn:E; [exact IH |].
  right. exists c, s. now split.
Qed.

Lemma strip_strip (s : string) : strip (strip s) = strip s.
Proof.
  unfold strip. destruct (lstrip_head s) as [-> | [c [r [-> Hc]]]];
    [reflexivity |].
  assert (lstrip (rstrip (String c r)) = rstrip (String c r)) as ->.
  { rewrite rstrip_cons. destruct (rstrip r); rewrite ?Hc; cbn [lstrip];
      now rewrite Hc. }
  apply rstrip_rstrip.
Qed.

Lemma all_chars_append (p : ascii -> bool) (a b : string) :
  all_chars p (a ++ b) = all_chars p a && all_chars p b.
Proof.
  induction a as [| c a IH]; simpl; [reflexivity |].
  now rewrite IH, andb_assoc.
Qed.

Lemma all_chars_lstrip (p : ascii -> bool) (s : string) :
  all_chars p s = true -> all_chars p (lstrip s) = true.
Proof.
  induction s as [| c s IH]; [auto |].
  cbn [lstrip]. destruct (isspace c); [| auto].
  cbn [all_chars]. intros H. apply andb_true_iff in H as [_ H]. auto.
Qed.

Lemma all_chars_rstrip (p : ascii -> bool) (s : string) :
  all_chars p s = true -> all_chars p (rstrip s) = true.
Proof.
  induction s as [| c s IH]; [auto |].
  cbn [all_chars]. intros H. apply andb_true_iff in H as [Hc Hs].
  cbn [rstrip]. specialize (IH Hs). destruct (rstrip s).
  - destruct (isspace c); cbn [all_chars]; [reflexivity | now rewrite Hc].
  - cbn [all_chars] in *. now rewrite Hc, IH.
Qed.

Lemma name_verdict_no_break (s acc nm v : string) (n : nat) :
  all_chars no_break acc = true ->
  Re.name_verdict acc s = Some (nm, v, n) -> all_chars no_break nm = true.
Proof.
  revert acc. induction s as [| c s IH]; intros acc Hacc; cbn [Re.name_verdict];
    [discriminate |].
  destruct (Ascii.eqb c newline) eqn:Ec; [discriminate |].
  assert (all_chars no_break (acc ++ String c EmptyString) = true) as Hacc'.
  { rewrite all_chars_append, Hacc. cbn. unfold no_break. now rewrite Ec. }
  destruct (Re.dots_verdict s) as [[v0 n0] |].
  - intros H. injection H as <- _ _. exact Hacc'.
  - apply IH. exact Hacc'.
Qed.

Lemma test_result_name (s num nm v : string) (n : nat) :
  Re.test_result s = Some ((num, nm, v), n) -> all_chars no_break nm = true.
Proof.
  unfold Re.test_result. destruct (Re.eat "[TEST " s) as [r |]; [| discriminate].
  destruct (Re.span isdigit r) as [num0 r1].
  destruct num0 as [| c num0]; [discriminate |].
  destruct (Re.eat "] " r1) as [r2 |]; [| discriminate].
  destruct (Re.name_verdict EmptyString r2) as [[[nm0 v0] n0] |] eqn:E;
    [| discriminate].
  intros H. injection H as _ <- _ _.
  exact (name_verdict_no_break r2 EmptyString nm0 v0 n0 eq_refl E).
Qed.

(** Every test result of the parser has a name without blanks at its
    ends and without a line break, and empty details. *)
Theorem parsed_names_trimmed (fs : files) (log_file : path)
        (tests : list TestResult) (m : PerformanceMetrics) (out : list effect) :
  parse_sync_log fs log_file = Ok ((tests, m), out) ->
  Forall (fun t => strip (name t) = name t
                   /\ all_chars no_break (name t) = true
                   /\ details t = EmptyString) tests.
Proof.
  unfold parse_sync_log. destruct (fs log_file) as [content |].
  - rewrite ParserFacts.tests_of_content. cbn [bind].
    destruct (collect_metrics content); [| discriminate]. cbn [bind].
    intros H. injection H as <- _ _.
    apply Forall_map.
    pose proof (ReFacts.finditer_from_forall Re.test_result
                  (fun '(_, nm, _) => all_chars no_break nm = true)) as Hall.
    eapply Forall_impl; [| apply Hall].
    + intros [[num nm] v] Hnm. cbn. repeat split.
      * apply strip_strip.
      * unfold strip. now apply all_chars_rstrip, all_chars_lstrip.
    + intros s [[num nm] v] n. apply test_result_name.
  - intros H. injection H as <- _ _. constructor.
Qed.

Lemma parsed_names_trimmed_witness :
  Forall (fun t => strip (name t) = name t
                   /\ all_chars no_break (name t) = true
                   /\ details t = EmptyString)
         [Samples.passing EmptyString].
Proof.
  apply (parsed_names_trimmed
           (Samples.one_file "fifo_sync.log" MoreSamples.blank_name_log)
           "fifo_sync.log" [Samples.passing EmptyString] default_metrics []).
  vm_compute. reflexivity.
Defined.














End ParserExtras.

(** ** analyze_synthesis.py: the reader of the synthesis report *)

Module ReaderExtras.

Import Py Env Spec Terms PyText AnalyzeSynthesis AnalyzeSynthesisMain.

Lemma cell_line_groups (s w g : string) :
  cell_line s = Some (w, g) ->
  w <> EmptyString /\ all_chars isword w = true /\ digits g.
Proof.
  unfold cell_line. destruct (Re.span isspace s) as [sp r].
  destruct sp; [discriminate |].
  pose proof (ReFacts.span_all isword r) as Hw.
  destruct (Re.span isword r) as [w0 r1]. simpl in Hw.
  destruct w0 as [| c w0]; [discriminate |].
  destruct (Re.span isspace r1) as [sp2 r2]. destruct sp2; [discriminate |].
  pose proof (ReFacts.span_all isdigit r2) as Hd.
  destruct (fst (Re.span isdigit r2)) as [| d g0]; [discriminate |].
  intros H. injection H as <- <-.
  repeat split; try discriminate; assumption.
Qed.

Lemma digits_here_group (s g : string) : digits_here s = Some g -> digits g.
Proof.
  unfold digits_here. pose proof (ReFacts.span_all isdigit s) as Hd.
  destruct (fst (Re.span isdigit s)) as [| d g0]; [discriminate |].
  intros H. injection H as <-. split; [discriminate | exact Hd].
Qed.

Lemma dict_set_forall {V : Type} (P : string * V -> Prop) (k : string) (v : V)
      (d : dict V) :
  (forall k', k' = k -> P (k', v)) -> Forall P d -> Forall P (dict_set k v d).
Proof.
  intros Hk. induction 1 as [| [k0 v0] d H0 Hd IH]; simpl.
  - constructor; [now apply Hk | constructor].
  - destruct (String.eqb k0 k) eqn:E.
    + apply String.eqb_eq in E. constructor; [now apply Hk | exact Hd].
    + constructor; assumption.
Qed.

Lemma set_cell_well_formed (k : string) (v : Z) (r : Report) :
  cell_entry (k, v) -> well_formed r -> well_formed (set_cell k v r).
Proof.
  intros Hk [H1 [H2 H3]]. split; [| split; [| exact H3]]; cbn [cells set_cell].
  - now apply PyFacts.dict_set_nodup.
  - apply dict_set_forall; [intros k' ->; exact Hk | exact H2].
Qed.

Lemma digits_nonneg (g : string) : digits g -> 0 <= digits_value 0 g.
Proof. intros [_ Hd]. apply PyFacts.digits_value_nonneg; [lia | exact Hd]. Qed.

(** The statistics part of the loop body never fails and records entries
    of the expected shape only. *)
Lemma statistics_step_ok (line : string) (r : Report) :
  exists f,
    statistics_step line r = Ok f
    /\ match f with
       | Onward r' => well_formed r -> well_formed r'
       | _ => True
       end.
Proof.
  unfold statistics_step.
  destruct (String.eqb (strip line) ""); [now exists Continue |].
  destruct (contains "===" line || contains "---" line); [now exists Break |].
  destruct (cell_line line) as [[w g] |] eqn:E; [| now exists (Onward r)].
  destruct (cell_line_groups _ _ _ E) as [Hne [Hw Hg]].
  rewrite (ParserFacts.int_of_group g Hg). cbn [bind].
  eexists. split; [reflexivity |]. cbv iota.
  apply set_cell_well_formed. repeat split; try assumption.
  now apply digits_nonneg.
Qed.

Lemma counter_ok (line : string) (r : Report) (set : Z -> Report -> Report) :
  (forall v, 0 <= v -> well_formed r -> well_formed (set v r)) ->
  (forall v, cells (set v r) = cells r) ->
  exists r',
    match Re.search digits_here line with
    | Some g => v <- int g ;; Ok (set v r)
    | None => Ok r
    end = Ok r'
    /\ (well_formed r -> well_formed r') /\ cells r' = cells r.
Proof.
  intros Hset Hcells.
  destruct (Re.search digits_here line) as [g |] eqn:E.
  - pose proof (ReFacts.search_group digits_here digits digits_here_group
                  line g E) as Hg.
    rewrite (ParserFacts.int_of_group g Hg). cbn [bind].
    eexists. split; [reflexivity |]. split; [| apply Hcells].
    apply Hset. now apply digits_nonneg.
  - exists r. split; [reflexivity | split; [auto | reflexivity]].
Qed.

Lemma counters_step_ok (line : string) (r : Report) :
  exists r',
    counters_step line r = Ok r'
    /\ (well_formed r -> well_formed r') /\ cells r' = cells r.
Proof.
  unfold counters_step.
  assert (exists r1,
             (if contains "Number of wires:" line then
                match Re.search digits_here line with
                | Some g => v <- int g ;; Ok (set_wires v r)
                | None => Ok r
                end
              else Ok r) = Ok r1
             /\ (well_formed r -> well_formed r1) /\ cells r1 = cells r)
    as [r1 [-> [Hwf1 Hc1]]].
  { destruct (contains "Number of wires:" line);
      [| exists r; split; [reflexivity | split; [auto | reflexivity]]].
    apply counter_ok; [| reflexivity].
    intros v Hv [H1 [H2 [H3 [H4 H5]]]]. repeat split; assumption. }
  cbn [bind].
  destruct (contains "Number of memories:" line);
    [| exists r1; split; [reflexivity | split; [auto | exact Hc1]]].
  destruct (counter_ok line r1 set_memories) as [r2 [-> [Hwf2 Hc2]]].
  - intros v Hv [H1 [H2 [H3 [H4 H5]]]]. repeat split; assumption.
  - reflexivity.
  - exists r2. split; [reflexivity | split; [auto | congruence]].
Qed.

Lemma scan_ok (lines : list string) (in_stat_section : bool) (r : Report) :
  well_formed r ->
  exists r', scan lines in_stat_section r = Ok r' /\ well_formed r'.
Proof.
  revert in_stat_section r.
  induction lines as [| line rest IH]; intros b r Hwf; cbn [scan].
  - now exists r.
  - destruct (contains "Printing statistics" line); [now apply IH |].
    destruct b.
    + destruct (statistics_step_ok line r) as [f [-> Hf]]. cbn [bind].
      destruct f as [r1 | |]; [| now apply IH | now exists r].
      destruct (counters_step_ok line r1) as [r2 [-> [Hwf2 _]]]. cbn [bind].
      apply IH. auto.
    + destruct (counters_step_ok line r) as [r1 [-> [Hwf1 _]]]. cbn [bind].
      apply IH. auto.
Qed.

Lemma empty_report_well_formed : well_formed empty_report.
Proof. repeat split; try constructor; cbn; lia. Qed.




Lemma scan_outside (lines : list string) (r r' : Report) :
  Forall (fun l => marker l = false) lines ->
  scan lines false r = Ok r' -> cells r' = cells r.
Proof.
  intros H. revert r. induction H as [| line rest Hl _ IH]; intros r;
    cbn [scan].
  - intros E. now injection E as <-.
  - unfold marker in Hl. rewrite Hl.
    destruct (counters_step_ok line r) as [r1 [-> [_ Hc]]]. cbn [bind].
    intros E. rewrite (IH r1 E). exact Hc.
Qed.

Lemma lstrip_empty (s : string) :
  lstrip s = EmptyString -> all_chars isspace s = true.
Proof.
  induction s as [| c s IH]; [reflexivity |].
  cbn [lstrip all_chars]. destruct (isspace c); [exact IH | discriminate].
Qed.

Lemma blank_spaces (s : string) : blank s = true -> all_chars isspace s = true.
Proof.
  unfold blank, strip. intros H. apply String.eqb_eq in H.
  destruct (ParserExtras.lstrip_head s) as [E | [c [r [E Hc]]]].
  - now apply lstrip_empty.
  - rewrite E, ParserExtras.rstrip_cons in H.
    destruct (rstrip r); [rewrite Hc in H |]; discriminate H.
Qed.

Lemma separator_not_blank (s : string) : separator s = true -> blank s = false.
Proof.
  intros H. destruct (blank s) eqn:B; [| reflexivity].
  apply blank_spaces in B. unfold separator in H.
  apply orb_true_iff in H as [H | H];
    apply PyFacts.contains_spec in H as [a [b ->]];
    rewrite ParserExtras.all_chars_append in B;
    apply andb_true_iff in B as [_ B]; discriminate B.
Qed.

Lemma scan_heading (blanks after : list string) (sep : string) (r : Report) :
  Forall (fun l => blank l = true) blanks ->
  marker sep = false -> separator sep = true ->
  scan (blanks ++ sep :: after)%list true r = Ok r.
Proof.
  intros Hb Hm Hs. induction Hb as [| l blanks Hl _ IH]; cbn [scan app].
  - unfold marker in Hm. rewrite Hm. unfold statistics_step.
    pose proof (separator_not_blank sep Hs) as Hnb. unfold blank in Hnb.
    rewrite Hnb. unfold separator in Hs. rewrite Hs. reflexivity.
  - destruct (contains "Printing statistics" l); [exact IH |].
    unfold statistics_step. unfold blank in Hl. rewrite Hl. exact IH.
Qed.

Lemma scan_before (before rest : list string) (r : Report) :
  Forall (fun l => marker l = false) before ->
  exists r1,
    scan (before ++ rest)%list false r = scan rest false r1
    /\ cells r1 = cells r.
Proof.
  intros H. revert r. induction H as [| l before Hl _ IH]; intros r;
    cbn [scan app].
  - now exists r.
  - unfold marker in Hl. rewrite Hl.
    destruct (counters_step_ok l r) as [r1 [-> [_ Hc]]]. cbn [bind].
    destruct (IH r1) as [r2 [-> Hc2]]. exists r2. split; congruence.
Qed.

(** No cell is recorded, and every resource count is 0, when the report
    has no line with the words Printing statistics, and also when the
    first line after the marker that is not blank is a separator, which
    is where the tool puts the heading of the module: whatever follows is
    not read. *)
Theorem cells_need_open_section (fs : files) (report_file : path)
        (content : string) (before blanks after : list string)
        (mark sep : string) :
  fs report_file = Some content ->
  Forall (fun l => marker l = false) before ->
  split_lines content = before
  \/ (split_lines content = (before ++ mark :: blanks ++ sep :: after)%list
      /\ marker mark = true
      /\ Forall (fun l => blank l = true) blanks
      /\ marker sep = false /\ separator sep = true) ->
  exists r,
    parse_yosys_report fs report_file = Ok (Some r)
    /\ cells r = []
    /\ count_resources (Some r) = no_resources.
Proof.
  intros Hfile Hbefore Hlines. unfold parse_yosys_report. rewrite Hfile.
  assert (exists r, scan (split_lines content) false empty_report = Ok r
                    /\ cells r = []) as [r [-> Hc]].
  { destruct Hlines as [-> | [-> [Hmark [Hblanks [Hm Hs]]]]].
    - destruct (scan_ok before false empty_report empty_report_well_formed)
        as [r [E _]].
      exists r. split; [exact E |]. exact (scan_outside _ _ _ Hbefore E).
    - destruct (scan_before before (mark :: blanks ++ sep :: after)
                  empty_report Hbefore) as [r1 [-> Hc1]].
      cbn [scan]. unfold marker in Hmark. rewrite Hmark.
      rewrite (scan_heading blanks after sep r1 Hblanks Hm Hs).
      now exists r1. }
  cbn [bind]. exists r. repeat split; [exact Hc |].
  unfold count_resources. now rewrite Hc.
Qed.

Lemma cells_need_open_section_witness :
  exists r,
    parse_yosys_report (Samples.one_file "fifo_sync_synth.rpt"
                                         MoreSamples.tool_report)
                       "fifo_sync_synth.rpt" = Ok (Some r)
    /\ cells r = []
    /\ count_resources (Some r) = no_resources.
Proof.
  apply (cells_need_open_section
           (Samples.one_file "fifo_sync_synth.rpt" MoreSamples.tool_report)
           "fifo_sync_synth.rpt" MoreSamples.tool_report
           [] [EmptyString]
           [EmptyString;
            "   Number of wires:                 30";
            "   Number of cells:                 12";
            "     SB_DFFE                        8";
            "     SB_LUT4                        4";
            EmptyString]
           "2.27. Printing statistics." "=== fifo_sync ===").
  - reflexivity.
  - constructor.
  - right. split; [vm_compute; reflexivity |].
    repeat split; try reflexivity. repeat constructor.
Defined.



End ReaderExtras.

(** ** check_coverage.py: the catalog and the entry point *)

Module CatalogExtras.

Import Py Env Spec Terms PyText CheckCoverage CheckCoverageMain.

Lemma task_decl_group (s nm : string) (n : nat) :
  task_decl s = Some (nm, n) ->
  exists w, nm = "test_" ++ w /\ w <> EmptyString /\ all_chars isword w = true.
Proof.
  unfold task_decl. destruct (Re.eat "task" s) as [r |]; [| discriminate].
  destruct (Re.span isspace r) as [sp r1]. destruct sp; [discriminate |].
  destruct (Re.eat "test_" r1) as [r2 |]; [| discriminate].
  pose proof (ReFacts.span_all isword r2) as Hw.
  destruct (Re.span isword r2) as [w r3]. simpl in Hw.
  destruct w as [| c w]; [discriminate |].
  destruct (Re.span isspace r3) as [sp2 r4].
  destruct (Re.eat ";" r4); [| discriminate].
  intros H. injection H as <- _. exists (String c w).
  repeat split; [discriminate | exact Hw].
Qed.

Lemma collect_scenarios_shape (task_names : list string)
      (tests : list TestScenario) :
  Forall (fun nm => exists w, nm = "test_" ++ w /\ w <> EmptyString
                              /\ all_chars isword w = true) task_names ->
  collect_scenarios task_names = Some tests ->
  Forall fresh tests
  /\ map name tests = task_names
  /\ Forall (fun t => title (plain_name t) = Some (description t)) tests.
Proof.
  intros H. revert tests.
  induction H as [| nm names Hnm _ IH]; intros tests; cbn [collect_scenarios].
  - intros E. injection E as <-. repeat split; constructor.
  - destruct (title (replace "_" " " (replace "test_" "" nm))) as [desc |] eqn:T;
      [| discriminate].
    destruct (collect_scenarios names) as [rest |]; [| discriminate].
    intros E. injection E as <-.
    destruct (IH rest eq_refl) as [H1 [H2 H3]].
    repeat split.
    + constructor; [| exact H1]. repeat split; try reflexivity. exact Hnm.
    + cbn [map name]. now rewrite H2.
    + constructor; [exact T | exact H3].
Qed.


(** The scenarios of the catalog are, in the order of their declarations,
    the tasks named [test_] followed by word characters; each belongs to
    the category functional and is neither executed nor passed.  A
    missing testbench gives no scenario. *)
Theorem catalog_scenarios (fs : files) (tb_file : path)
        (tests : list TestScenario) :
  extract_tests_from_testbench fs tb_file = Some tests ->
  Forall fresh tests
  /\ map name tests
     = match fs tb_file with
       | Some content => Re.finditer task_decl content
       | None => []
       end.
Proof.
  unfold extract_tests_from_testbench.
  destruct (fs tb_file) as [content |].
  - intros E.
    destruct (collect_scenarios_shape _ tests
                (ReFacts.finditer_from_forall task_decl _
                   (fun s a n H => task_decl_group s a n H) content O) E)
      as [H1 [H2 _]].
    now split.
  - intros E. injection E as <-. split; [constructor | reflexivity].
Qed.

Lemma catalog_scenarios_witness :
  map name
      [Samples.scenario "test_reset_behavior" "Reset Behavior";
       Samples.scenario "test_Fill_FIFO" "Fill Fifo"]
  = ["test_reset_behavior"; "test_Fill_FIFO"].
Proof.
  pose proof (catalog_scenarios
                (Samples.one_file "fifo_sync_tb.v" MoreSamples.small_testbench)
                "fifo_sync_tb.v"
                [Samples.scenario "test_reset_behavior" "Reset Behavior";
                 Samples.scenario "test_Fill_FIFO" "Fill Fifo"]
                eq_refl) as [_ H].
  exact H.
Defined.

Lemma lower_char_twice (c : ascii) : lower_char (lower_char c) = lower_char c.
Proof. destruct c as [[] [] [] [] [] [] [] []]; reflexivity. Qed.

(** A test that holds of the 256 characters holds of every character. *)
Lemma every_char (P : ascii -> bool) :
  forallb P (map ascii_of_nat (seq 0 256)) = true -> forall c, P c = true.
Proof.
  intros H c. rewrite forallb_forall in H. apply H.
  rewrite <- (ascii_nat_embedding c). apply in_map, in_seq.
  pose proof (nat_ascii_bounded c). lia.
Qed.

Lemma lower_title_char (c c' : ascii) :
  title_char c = Some c' -> lower_char c' = lower_char c.
Proof.
  pose proof (every_char
                (fun c => match title_char c with
                          | Some d => Ascii.eqb (lower_char d) (lower_char c)
                          | None => true
                          end)) as H.
  specialize (H ltac:(vm_compute; reflexivity) c). cbv beta in H.
  intros E. rewrite E in H. now apply Ascii.eqb_eq.
Qed.

Lemma lower_title_from (b : bool) (s s' : string) :
  title_from b s = Some s' -> lower s' = lower s.
Proof.
  revert b s'. induction s as [| c s IH]; intros b s'; cbn [title_from].
  - intros H. now injection H as <-.
  - destruct (if b then Some (lower_char c) else title_char c) as [c' |] eqn:Ec;
      [| discriminate].
    destruct (title_from (iscased c) s) as [r' |] eqn:Er; [| discriminate].
    intros H. injection H as <-. cbn [lower].
    rewrite (IH _ _ Er). f_equal.
    destruct b.
    + injection Ec as <-. apply lower_char_twice.
    + now apply lower_title_char.
Qed.







End CatalogExtras.

(** ** synthesis_summary.py: the reader and the script *)

Module SummaryExtras.

Import Py Env Spec Terms PyText SynthesisSummaryScript.

Lemma on_done {A B : Type} (e : ended A) (k : A -> ended B) (b : B) :
  on e k = Done b -> exists a, e = Done a /\ k a = Done b.
Proof.
  destruct e as [a | x]; cbn; [| discriminate].
  intros H. now exists a.
Qed.

Lemma rstrip_is_prefix (u : string) : exists w, u = rstrip u ++ w.
Proof.
  induction u as [| c u [w IH]]; [now exists EmptyString |].
  rewrite ParserExtras.rstrip_cons. destruct (rstrip u) as [| d r].
  - destruct (isspace c); [now exists (String c u) | now exists u].
  - exists w. change (String c u = String c (String d r ++ w)).
    now rewrite <- IH.
Qed.

Lemma prefix_of_strip (p s : string) :
  String.prefix p (strip s) = true -> String.prefix p (lstrip s) = true.
Proof.
  unfold strip. rewrite !PyFacts.prefix_spec. intros [x Hx].
  destruct (rstrip_is_prefix (lstrip s)) as [w Hw].
  exists (x ++ w). rewrite Hw at 1. rewrite Hx.
  apply SynthesisExtras.append_assoc.
Qed.

Lemma split_from_lstrip (s : string) :
  split_from EmptyString s = split_from EmptyString (lstrip s).
Proof.
  induction s as [| c s IH]; [reflexivity |].
  cbn [lstrip]. destruct (isspace c) eqn:E; [| reflexivity].
  cbn [split_from]. now rewrite E.
Qed.

Lemma split_from_head (cur s : string) :
  cur <> EmptyString ->
  exists t rest, split_from cur s = (cur ++ t) :: rest.
Proof.
  revert cur. induction s as [| c s IH]; intros cur Hcur; cbn [split_from].
  - destruct cur; [contradiction |].
    eexists EmptyString, []. now rewrite PyFacts.append_empty_r.
  - destruct (isspace c).
    + destruct cur; [contradiction |].
      eexists EmptyString, _. now rewrite PyFacts.append_empty_r.
    + destruct (IH (cur ++ String c EmptyString)) as [t [rest ->]].
      * destruct cur; discriminate.
      * exists (String c t), rest. now rewrite SynthesisExtras.append_assoc.
Qed.

(** The first field of a line whose text starts with [$_] starts with
    [$_] too. *)
Lemma first_field (line x : string) :
  startswith "$_" (strip line) = true ->
  first_item (split line) = Done x ->
  String.prefix "$_" x = true.
Proof.
  unfold startswith. intros H. apply prefix_of_strip in H.
  unfold split. rewrite split_from_lstrip.
  apply PyFacts.prefix_spec in H as [r ->].
  change (split_from EmptyString ("$_" ++ r)) with (split_from "$_" r).
  destruct (split_from_head "$_" r ltac:(discriminate)) as [t [rest ->]].
  cbn [first_item]. intros E. injection E as <-.
  apply PyFacts.prefix_spec. now exists t.
Qed.

Lemma line_step_cells (line : string) (d d' : Data) :
  line_step line d = Done d' -> gate_cells d -> gate_cells d'.
Proof.
  unfold line_step. intros H Hd.
  apply on_done in H as [d1 [H1 H]].
  assert (cells d1 = cells d) as Hc1.
  { destruct (contains "Number of cells:" line);
      [| now injection H1 as <-].
    apply on_done in H1 as [t [_ H1]]. apply on_done in H1 as [n [_ H1]].
    now injection H1 as <-. }
  apply on_done in H as [d2 [H2 H]].
  assert (cells d2 = cells d) as Hc2.
  { rewrite <- Hc1. destruct (contains "Number of wires:" line);
      [| now injection H2 as <-].
    apply on_done in H2 as [t [_ H2]]. apply on_done in H2 as [n [_ H2]].
    now injection H2 as <-. }
  destruct (startswith "$_" (strip line)) eqn:E.
  - apply on_done in H as [cell_type [Hf H]].
    apply on_done in H as [t [_ H]]. apply on_done in H as [n [_ H]].
    injection H as <-. unfold gate_cells. cbn [cells]. rewrite Hc2.
    destruct Hd as [Hnd Hall]. split.
    + now apply PyFacts.dict_set_nodup.
    + apply ReaderExtras.dict_set_forall; [| exact Hall].
      intros k' ->. cbn [fst]. exact (first_field line cell_type E Hf).
  - injection H as <-. unfold gate_cells. now rewrite Hc2.
Qed.

Lemma lines_loop_cells (lines : list string) (d d' : Data) :
  lines_loop lines d = Done d' -> gate_cells d -> gate_cells d'.
Proof.
  revert d. induction lines as [| line rest IH]; intros d; cbn [lines_loop].
  - intros H. now injection H as <-.
  - intros H Hd. apply on_done in H as [d1 [H1 H]].
    exact (IH d1 H (line_step_cells line d d1 H1 Hd)).
Qed.

Lemma parse_report_cells (fs : files) (filename : path) (d : Data) :
  parse_report fs filename = Done d -> gate_cells d.
Proof.
  unfold parse_report. destruct (fs filename) as [content |]; [| discriminate].
  intros H. apply (lines_loop_cells _ _ _ H).
  split; constructor.
Qed.

(** The two scripts read the same report files and never record the same
    cell type: every name recorded by [parse_report] starts with [$_],
    and no name recorded by [parse_yosys_report] holds a dollar sign. *)
Theorem readers_share_no_cell (fs : files) (file : path)
        (r : AnalyzeSynthesis.Report) (d : Data) (cell_type : string) :
  AnalyzeSynthesisMain.parse_yosys_report fs file = Ok (Some r) ->
  parse_report fs file = Done d ->
  In cell_type (map fst (cells d)) ->
  String.prefix "$_" cell_type = true
  /\ ~ In cell_type (map fst (AnalyzeSynthesis.cells r)).
Proof.
  intros Hr Hd Hin.
  destruct (parse_report_cells fs file d Hd) as [_ Hall].
  apply in_map_iff in Hin as [[k v] [<- Hin]].
  rewrite Forall_forall in Hall. pose proof (Hall _ Hin) as Hk. cbn [fst] in *.
  split; [exact Hk |].
  intros Hin'. apply in_map_iff in Hin' as [[k' v'] [Heq Hin']].
  cbn [fst] in Heq. subst k'.
  unfold AnalyzeSynthesisMain.parse_yosys_report in Hr.
  destruct (fs file) as [content |]; [| discriminate].
  destruct (ReaderExtras.scan_ok (split_lines content) false
              AnalyzeSynthesisMain.empty_report
              ReaderExtras.empty_report_well_formed) as [r0 [E Hwf]].
  rewrite E in Hr. cbn [bind] in Hr. injection Hr as <-.
  destruct Hwf as [_ [Hcells _]]. rewrite Forall_forall in Hcells.
  destruct (Hcells _ Hin') as [_ [Hw _]]. cbn [fst] in Hw.
  apply PyFacts.prefix_spec in Hk as [rest ->].
  cbn in Hw. discriminate Hw.
Qed.

Lemma readers_share_no_cell_witness :
  String.prefix "$_" "$_AND_" = true
  /\ ~ In "$_AND_" ["SB_DFFE"; "SB_LUT4"].
Proof.
  apply (readers_share_no_cell
           (MoreSamples.two_reports MoreSamples.plain_report
                                    MoreSamples.gate_report)
           sync_path
           {| AnalyzeSynthesis.cells := [("SB_DFFE", 8); ("SB_LUT4", 4)];
              AnalyzeSynthesis.wires := 30;
              AnalyzeSynthesis.memories := 0;
              AnalyzeSynthesis.processes := 0 |}
           {| total_cells := 0; cells := [("$_AND_", 5)]; wires := 30 |}).
  - vm_compute. reflexivity.
  - vm_compute. reflexivity.
  - cbn. now left.
Defined.

Lemma ending_and_then {A B : Type} (c : run A) (k : A -> run B) :
  ending (and_then c k)
  = match ending c with
    | Done a => ending (k a)
    | Failed e => Failed e
    end.
Proof.
  destruct c as [out [a | e]]; cbn; [| reflexivity].
  destruct (k a). reflexivity.
Qed.

Lemma share_cases (a b : Z) :
  if b =? 0 then share a b = Failed (Builtin ZeroDivisionError)
  else (exists p, share a b = Done p)
       \/ share a b = Failed (Builtin OverflowError).
Proof.
  unfold share. destruct (b =? 0) eqn:E.
  - apply Z.eqb_eq in E. subst b. reflexivity.
  - apply Z.eqb_neq in E. unfold truediv, mul_int.
    destruct (b =? 0) eqn:E0; [apply Z.eqb_eq in E0; contradiction |].
    rewrite SynthesisFacts.float_of_100.
    destruct (round_ratio (xorb (a <? 0) (b <? 0)) (Z.abs a) (Z.abs b));
      cbn; try (left; eexists; reflexivity).
    now right.
Qed.

Lemma print_row_cases (name : string) (sync_val async_val : Z) :
  ending (print_row name sync_val async_val) = Done tt
  \/ ending (print_row name sync_val async_val)
     = Failed (Builtin OverflowError).
Proof.
  unfold print_row. rewrite ending_and_then. unfold silent, ending. cbn [snd].
  unfold SynthesisSummary.print_row, SynthesisSummary.diff_pct.
  destruct (sync_val >? 0) eqn:E.
  - apply PyFacts.gtb_true in E.
    destruct (SynthesisFacts.scaled_quotient_cases (async_val - sync_val)
                sync_val ltac:(lia)) as [[x ->] | ->].
    + left. reflexivity.
    + right. reflexivity.
  - left. reflexivity.
Qed.

(** The details of a design end well or with an overflow when the design
    has a cell total, and with a division by zero when it has none. *)
Lemma details_cases (title : string) (d : Data) (ff mux logic : Z) :
  if total_cells d =? 0
  then ending (details title d ff mux logic)
       = Failed (Builtin ZeroDivisionError)
  else ending (details title d ff mux logic) = Done tt
       \/ ending (details title d ff mux logic)
          = Failed (Builtin OverflowError).
Proof.
  unfold details. rewrite !ending_and_then. cbn [ending print snd silent].
  pose proof (share_cases ff (total_cells d)) as Hf.
  pose proof (share_cases mux (total_cells d)) as Hm.
  pose proof (share_cases logic (total_cells d)) as Hl.
  destruct (total_cells d =? 0).
  - rewrite Hf. reflexivity.
  - destruct Hf as [[p ->] | ->]; [| now right].
    rewrite !ending_and_then. cbn [ending print snd silent].
    destruct Hm as [[q ->] | ->]; [| now right].
    rewrite !ending_and_then. cbn [ending print snd silent].
    destruct Hl as [[u ->] | ->]; [| now right].
    rewrite !ending_and_then. cbn [ending print snd silent].
    now left.
Qed.

(** When both reports are read, the script reaches the end of its
    detailed breakdown only if both designs have a cell total other than
    zero.  It fails with a division by zero exactly when none of the
    five rows of the table overflowed and a design has a total of zero,
    as it has when its report lacks the line [Number of cells:]; the
    table itself, whose rows are guarded, never divides by zero. *)
Theorem breakdown_needs_totals (fs : files) (sync_data async_data : Data) :
  parse_report fs sync_path = Done sync_data ->
  parse_report fs async_path = Done async_data ->
  match ending (breakdown fs) with
  | Done _ => total_cells sync_data <> 0 /\ total_cells async_data <> 0
  | Failed (Builtin ZeroDivisionError) =>
      total_cells sync_data = 0 \/ total_cells async_data = 0
  | Failed (Builtin OverflowError) => True
  | Failed _ => False
  end.
Proof.
  intros Hs Ha. unfold breakdown.
  rewrite !ending_and_then. cbn [ending print snd silent].
  rewrite Hs. rewrite !ending_and_then. cbn [ending print snd silent].
  rewrite Ha. cbv zeta.
  rewrite !ending_and_then. cbn [ending print snd silent].
  repeat match goal with
         | |- context [ending (print_row ?n ?a ?b)] =>
             destruct (print_row_cases n a b) as [-> | ->]; [| exact I]
         end.
  pose proof (details_cases "SYNCHRONOUS FIFO:" sync_data
                (SynthesisSummary.count_ffs (cells sync_data))
                (SynthesisSummary.count_mux (cells sync_data))
                (SynthesisSummary.count_logic (cells sync_data))) as Hds.
  pose proof (details_cases "ASYNCHRONOUS FIFO:" async_data
                (SynthesisSummary.count_ffs (cells async_data))
                (SynthesisSummary.count_mux (cells async_data))
                (SynthesisSummary.count_logic (cells async_data))) as Hda.
  destruct (total_cells sync_data =? 0) eqn:Es.
  - rewrite Hds. left. now apply Z.eqb_eq.
  - apply Z.eqb_neq in Es. destruct Hds as [-> | ->]; [| exact I].
    destruct (total_cells async_data =? 0) eqn:Ea.
    + rewrite Hda. right. now apply Z.eqb_eq.
    + apply Z.eqb_neq in Ea. destruct Hda as [-> | ->]; [| exact I].
      now split.
Qed.

Lemma breakdown_needs_totals_witness :
  match ending (breakdown (MoreSamples.two_reports
                             MoreSamples.uncounted_report
                             MoreSamples.gate_report)) with
  | Done _ => 0 <> 0 /\ 12 <> 0
  | Failed (Builtin ZeroDivisionError) => 0 = 0 \/ 12 = 0
  | Failed (Builtin OverflowError) => True
  | Failed _ => False
  end.
Proof.
  exact (breakdown_needs_totals
           (MoreSamples.two_reports MoreSamples.uncounted_report
                                    MoreSamples.gate_report)
           {| total_cells := 0; cells := [("$_DFF_P_", 8)]; wires := 30 |}
           {| total_cells := 12;
              cells := [("$_DFF_P_", 8); ("$_MUX_", 3); ("$_XOR_", 1)];
              wires := 30 |}
           ltac:(vm_compute; reflexivity)
           ltac:(vm_compute; reflexivity)).
Defined.

(** A report that cannot be read stops the script before the table: the
    three title lines are all it prints, and it ends with the failure of
    the reader, for the first report or, when that one is read, for the
    second. *)
Theorem unread_report_stops_script (fs : files) (e : error) :
  parse_report fs sync_path = Failed e
  \/ ((exists d, parse_report fs sync_path = Done d)
      /\ parse_report fs async_path = Failed e) ->
  breakdown fs = (titles, Failed e).
Proof.
  intros [H | [[d Hd] H]]; unfold breakdown.
  - rewrite H. reflexivity.
  - rewrite Hd, H. reflexivity.
Qed.

Lemma unread_report_stops_script_witness :
  breakdown Samples.no_file = (titles, Failed FileNotFoundError).
Proof.
  apply (unread_report_stops_script Samples.no_file FileNotFoundError).
  left. reflexivity.
Defined.

Lemma split_from_text (cur a : string) (c : ascii) (r : string) :
  isspace c = false -> split_from cur (a ++ String c r) <> [].
Proof.
  intros Hc. revert cur. induction a as [| x a IH]; intros cur.
  - change (EmptyString ++ String c r) with (String c r).
    cbn [split_from]. rewrite Hc.
    destruct (split_from_head (cur ++ String c EmptyString) r)
      as [t [rest ->]]; [destruct cur; discriminate | discriminate].
  - change (String x a ++ String c r) with (String x (a ++ String c r)).
    cbn [split_from]. destruct (isspace x); [| apply IH].
    destruct cur; [apply IH | discriminate].
Qed.

Lemma last_item_done (xs : list string) :
  xs <> [] -> exists x, last_item xs = Done x.
Proof.
  intros H. unfold last_item. destruct (rev xs) as [| x r] eqn:E.
  - apply (f_equal (@rev string)) in E. rewrite rev_involutive in E.
    contradiction.
  - now exists x.
Qed.

Lemma int_of_token_cases (t : string) :
  (exists n, int_of_token t = Done n)
  \/ int_of_token t = Failed (Builtin ValueError).
Proof.
  unfold int_of_token.
  match goal with
  | |- context [match ?p with Some n => Done n | None => _ end] =>
      destruct p as [n |]
  end; [left; now exists n | now right].
Qed.

(** The number after a heading: read, or no integer. *)
Lemma heading_number (p line : string) (c : ascii) (rest : string)
      (k : Z -> Data) :
  p = String c rest -> isspace c = false ->
  contains p line = true ->
  (exists n, on (last_item (split line))
                (fun t => on (int_of_token t) (fun n => Done (k n)))
             = Done (k n))
  \/ on (last_item (split line))
        (fun t => on (int_of_token t) (fun n => Done (k n)))
     = Failed (Builtin ValueError).
Proof.
  intros -> Hc H. apply PyFacts.contains_spec in H as [a [b ->]].
  destruct (last_item_done (split (a ++ String c rest ++ b))) as [t ->].
  - unfold split.
    change (String c rest ++ b) with (String c (rest ++ b)).
    now apply split_from_text.
  - cbn [on]. destruct (int_of_token_cases t) as [[n ->] | ->].
    + left. now exists n.
    + now right.
Qed.

(** A line stops the reader with a number that is no integer, or as a
    cell line of one field. *)
Lemma line_step_failure (line : string) (d : Data) (e : error) :
  line_step line d = Failed e ->
  e = Builtin ValueError
  \/ (e = IndexError
      /\ exists cell, split line = [cell]
                      /\ String.prefix "$_" cell = true).
Proof.
  unfold line_step.
  assert (exists d1,
             (if contains "Number of cells:" line then
                on (last_item (split line)) (fun t =>
                on (int_of_token t) (fun n =>
                Done {| total_cells := n; cells := cells d;
                        wires := wires d |}))
              else Done d) = Done d1
             \/ (if contains "Number of cells:" line then
                   on (last_item (split line)) (fun t =>
                   on (int_of_token t) (fun n =>
                   Done {| total_cells := n; cells := cells d;
                           wires := wires d |}))
                 else Done d) = Failed (Builtin ValueError)) as [d1 [-> | ->]].
  { destruct (contains "Number of cells:" line) eqn:E.
    - destruct (heading_number "Number of cells:" line "N" "umber of cells:"
                  (fun n => {| total_cells := n; cells := cells d;
                               wires := wires d |})
                  eq_refl eq_refl E) as [[n ->] | ->].
      + eexists. left. reflexivity.
      + exists d. now right.
    - exists d. now left. }
  2: { cbn [on]. intros H. injection H as <-. now left. }
  cbn [on].
  assert (exists d2,
             (if contains "Number of wires:" line then
                on (last_item (split line)) (fun t =>
                on (int_of_token t) (fun n =>
                Done {| total_cells := total_cells d1; cells := cells d1;
                        wires := n |}))
              else Done d1) = Done d2
             \/ (if contains "Number of wires:" line then
                   on (last_item (split line)) (fun t =>
                   on (int_of_token t) (fun n =>
                   Done {| total_cells := total_cells d1; cells := cells d1;
                           wires := n |}))
                 else Done d1) = Failed (Builtin ValueError)) as [d2 [-> | ->]].
  { destruct (contains "Number of wires:" line) eqn:E.
    - destruct (heading_number "Number of wires:" line "N" "umber of wires:"
                  (fun n => {| total_cells := total_cells d1;
                               cells := cells d1; wires := n |})
                  eq_refl eq_refl E) as [[n ->] | ->].
      + eexists. left. reflexivity.
      + exists d1. now right.
    - exists d1. now left. }
  2: { cbn [on]. intros H. injection H as <-. now left. }
  cbn [on].
  destruct (startswith "$_" (strip line)) eqn:E; [| discriminate].
  cbv zeta. destruct (split line) as [| cell [| t rest]] eqn:Es.
  - cbn. intros H. exfalso.
    unfold startswith in E. apply prefix_of_strip in E.
    apply PyFacts.prefix_spec in E as [r Hr].
    unfold split in Es. rewrite split_from_lstrip, Hr in Es.
    change (split_from EmptyString ("$_" ++ r)) with (split_from "$_" r) in Es.
    destruct (split_from_head "$_" r ltac:(discriminate)) as [u [rest Hu]].
    rewrite Hu in Es. discriminate.
  - cbn. intros H. injection H as <-. right. split; [reflexivity |].
    exists cell. split; [reflexivity |].
    apply (first_field line cell E). now rewrite Es.
  - cbn [on first_item second_item].
    destruct (int_of_token_cases t) as [[n ->] | ->]; cbn [on].
    + discriminate.
    + intros H. injection H as <-. now left.
Qed.

Lemma lines_loop_failure (lines : list string) (d : Data) (e : error) :
  lines_loop lines d = Failed e ->
  e = Builtin ValueError
  \/ (e = IndexError
      /\ exists line cell, In line lines /\ split line = [cell]
                           /\ String.prefix "$_" cell = true).
Proof.
  revert d. induction lines as [| line rest IH]; intros d; cbn [lines_loop].
  - discriminate.
  - destruct (line_step line d) as [d1 | x] eqn:E; cbn [on].
    + intros H. destruct (IH d1 H) as [-> | [-> [l [cell [Hin Hl]]]]].
      * now left.
      * right. split; [reflexivity |]. exists l, cell. split; [now right |].
        exact Hl.
    + intros H. injection H as <-.
      destruct (line_step_failure line d x E) as [-> | [-> [cell Hl]]].
      * now left.
      * right. split; [reflexivity |]. exists line, cell.
        split; [now left | exact Hl].
Qed.

(** The reader of the summary script fails in three ways only: the
    report is missing; a number is no integer; or a line that starts
    with [$_] has no second field, which is the one case of an index
    out of range.  The headings [Number of cells:] and
    [Number of wires:] never give an index out of range. *)
Theorem summary_reader_failures (fs : files) (filename : path) (e : error) :
  parse_report fs filename = Failed e ->
  match e with
  | FileNotFoundError => fs filename = None
  | IndexError =>
      exists content line cell,
        fs filename = Some content
        /\ In line (readlines content)
        /\ split line = [cell]
        /\ String.prefix "$_" cell = true
  | Builtin ValueError => fs filename <> None
  | Builtin _ => False
  end.
Proof.
  unfold parse_report. destruct (fs filename) as [content |] eqn:Ef.
  - intros H.
    destruct (lines_loop_failure _ _ _ H) as [-> | [-> [l [cell [Hin Hl]]]]].
    + discriminate.
    + exists content, l, cell. split; [reflexivity |]. split; assumption.
  - intros H. injection H as <-. reflexivity.
Qed.

Lemma summary_reader_failures_witness :
  exists content line cell,
    MoreSamples.two_reports MoreSamples.bare_cell_report
                            MoreSamples.gate_report sync_path = Some content
    /\ In line (readlines content)
    /\ split line = [cell]
    /\ String.prefix "$_" cell = true.
Proof.
  exact (summary_reader_failures
           (MoreSamples.two_reports MoreSamples.bare_cell_report
                                    MoreSamples.gate_report)
           sync_path IndexError ltac:(vm_compute; reflexivity)).
Defined.

End SummaryExtras.

(** ** check_coverage.py: the checklist of required tests *)

Module ChecklistExtras.

Import Py Env CheckCoverage CheckCoverageMain Spec Terms PyText.

Lemma spoken_word (c : ascii) : isword c = true -> spoken c = true.
Proof. unfold spoken. now intros ->. Qed.

Lemma spoken_lower_char (c : ascii) :
  spoken c = true -> spoken (lower_char c) = true.
Proof.
  pose proof (CatalogExtras.every_char
                (fun c => implb (spoken c) (spoken (lower_char c)))
                ltac:(vm_compute; reflexivity) c) as H.
  cbv beta in H. intros E. now rewrite E in H.
Qed.

Lemma all_chars_impl (p q : ascii -> bool) (s : string) :
  (forall c, p c = true -> q c = true) ->
  all_chars p s = true -> all_chars q s = true.
Proof.
  intros Hpq. induction s as [| c s IH]; [reflexivity |].
  cbn [all_chars]. rewrite !andb_true_iff. intros [H1 H2].
  split; [now apply Hpq | now apply IH].
Qed.

Lemma spoken_lower (s : string) :
  all_chars spoken s = true -> all_chars spoken (lower s) = true.
Proof.
  induction s as [| c s IH]; [reflexivity |].
  cbn [all_chars lower]. rewrite !andb_true_iff. intros [H1 H2].
  split; [now apply spoken_lower_char | now apply IH].
Qed.

Lemma all_chars_replace (p : ascii -> bool) (old new : string) (skip : nat)
      (s : string) :
  all_chars p new = true -> all_chars p s = true ->
  all_chars p (replace_from old new skip s) = true.
Proof.
  intros Hnew. revert skip. induction s as [| c s IH]; intros skip;
    [reflexivity |].
  cbn [all_chars replace_from]. rewrite andb_true_iff. intros [H1 H2].
  destruct skip as [| k]; [| now apply IH].
  destruct (String.prefix old (String c s)).
  - rewrite ParserExtras.all_chars_append, Hnew. now apply IH.
  - cbn [all_chars]. rewrite H1. now apply IH.
Qed.

(** The lower-cased description of a scenario of the catalog holds word
    characters and spaces only. *)
Lemma spoken_description (t : TestScenario) :
  fresh t -> title (plain_name t) = Some (description t) ->
  all_chars spoken (lower (description t)) = true.
Proof.
  intros [[w [Hn [_ Hw]]] _] Ht.
  rewrite (CatalogExtras.lower_title_from false _ _ Ht).
  apply spoken_lower. unfold plain_name, replace.
  apply all_chars_replace; [reflexivity |].
  apply all_chars_replace; [reflexivity |].
  rewrite Hn, ParserExtras.all_chars_append.
  apply andb_true_iff. split; [reflexivity |].
  exact (all_chars_impl isword spoken w spoken_word Hw).
Qed.

Lemma catalog_spoken (fs : files) (tb_file : path)
      (tests : list TestScenario) :
  extract_tests_from_testbench fs tb_file = Some tests ->
  Forall (fun t => all_chars spoken (lower (description t)) = true) tests.
Proof.
  unfold extract_tests_from_testbench.
  destruct (fs tb_file) as [content |].
  - intros E.
    destruct (CatalogExtras.collect_scenarios_shape _ tests
                (ReFacts.finditer_from_forall task_decl _
                   (fun s a n H => CatalogExtras.task_decl_group s a n H)
                   content O) E) as [H1 [_ H3]].
    rewrite Forall_forall in *. intros t Hin.
    exact (spoken_description t (H1 t Hin) (H3 t Hin)).
  - intros E. injection E as <-. constructor.
Qed.

Lemma checked_spoken (fs : files) (log_file : path)
      (tests : list TestScenario) :
  Forall (fun t => all_chars spoken (lower (description t)) = true) tests ->
  Forall (fun t => all_chars spoken (lower (description t)) = true)
         (check_test_execution fs log_file tests).
Proof.
  unfold check_test_execution. destruct (fs log_file) as [content |]; [| auto].
  cbv zeta. intros H. apply Forall_map. eapply Forall_impl; [| exact H].
  intros t Ht. cbv beta.
  destruct (CoverageExtras.update_fields
              (collect_executed (Re.finditer Re.test_result content)) t)
    as [_ [_ [-> _]]].
  exact Ht.
Qed.

(** A text with a character that is no word character and no space is
    part of no name of spoken characters. *)
Lemma not_in_spoken (needle : string) (names : list string) :
  all_chars spoken needle = false ->
  Forall (fun name => all_chars spoken name = true) names ->
  existsb (fun name => contains needle name) names = false.
Proof.
  intros Hn H. induction H as [| name names Hname _ IH]; [reflexivity |].
  cbn [existsb]. rewrite IH, orb_false_r.
  destruct (contains needle name) eqn:E; [| reflexivity].
  apply PyFacts.contains_spec in E as [a [b ->]].
  rewrite !ParserExtras.all_chars_append, Hn in Hname.
  now rewrite andb_false_r in Hname.
Qed.

(** The lines of the checklist for the requirements written with a slash
    or a hyphen, over names of spoken characters. *)
Lemma marked_lines (names : list string) (test : string) :
  Forall (fun name => all_chars spoken name = true) names ->
  In test marked_requirements ->
  In ("  [ ] " ++ test) (checklist names)
  /\ ~ In ("  [x] " ++ test) (checklist names).
Proof.
  intros H Hin.
  pose proof (not_in_spoken "single write/read" names eq_refl H) as E1.
  pose proof (not_in_spoken "simultaneous read/write" names eq_refl H) as E2.
  pose proof (not_in_spoken "pointer wrap-around" names eq_refl H) as E3.
  unfold checklist, required_tests.
  cbn [flat_map map app].
  change (lower "Single write/read") with "single write/read".
  change (lower "Simultaneous read/write") with "simultaneous read/write".
  change (lower "Pointer wrap-around") with "pointer wrap-around".
  rewrite E1, E2, E3.
  destruct Hin as [<- | [<- | [<- | []]]]; (split; [cbn; tauto |]);
    intros Hx;
    repeat (destruct Hx as [Hx | Hx];
            [ try discriminate Hx;
              match type of Hx with
              | context [existsb ?f ?l] => destruct (existsb f l)
              end; discriminate Hx | ]);
    exact Hx.
Qed.

(** Three requirements of the checklist are never ticked: the names the
    report looks them up in are the lower-cased descriptions of the
    scenarios, which come from task names and hold word characters and
    spaces only, while [Single write/read], [Simultaneous read/write]
    and [Pointer wrap-around] are written with a slash or a hyphen. *)
Theorem marked_requirements_unticked (fs : files)
        (sync_tb async_tb sync_log async_log : path)
        (sync_tests async_tests : list TestScenario) (test : string) :
  extract_tests_from_testbench fs sync_tb = Some sync_tests ->
  extract_tests_from_testbench fs async_tb = Some async_tests ->
  In test marked_requirements ->
  let all_tests := (check_test_execution fs sync_log sync_tests
                    ++ check_test_execution fs async_log async_tests)%list in
  let all_test_names := map (fun t => lower (description t)) all_tests in
  In ("  [ ] " ++ test) (checklist all_test_names)
  /\ ~ In ("  [x] " ++ test) (checklist all_test_names).
Proof.
  intros Hs Ha Hin all_tests all_test_names.
  apply marked_lines; [| exact Hin].
  unfold all_test_names, all_tests. apply Forall_map, Forall_app. split.
  - apply checked_spoken. exact (catalog_spoken fs sync_tb sync_tests Hs).
  - apply checked_spoken. exact (catalog_spoken fs async_tb async_tests Ha).
Qed.

Lemma marked_requirements_unticked_witness :
  In "  [ ] Single write/read"
     (checklist ["single write read"; "pointer wrap around"])
  /\ ~ In "  [x] Single write/read"
          (checklist ["single write read"; "pointer wrap around"]).
Proof.
  exact (marked_requirements_unticked
           (Samples.one_file "fifo_sync_tb.v" MoreSamples.write_read_testbench)
           "fifo_sync_tb.v" "fifo_async_tb.v" "fifo_sync.log" "fifo_async.log"
           [Samples.scenario "test_single_write_read" "Single Write Read";
            Samples.scenario "test_pointer_wrap_around" "Pointer Wrap Around"]
           [] "Single write/read"
           ltac:(vm_compute; reflexivity) ltac:(vm_compute; reflexivity)
           ltac:(cbn; tauto)).
Defined.

End ChecklistExtras.

(** ** analyze_synthesis.py: the printed report and [main] *)

Module SynthesisMainExtras.

Import Py Env Spec Terms PyText AnalyzeSynthesis AnalyzeSynthesisMain.
Import SynthesisSummaryScript(run, ended, Done, Failed, error, Builtin,
                              and_then, print, silent, lift, sorted_by_count).
Import AnalyzeSynthesisReport.












End SynthesisMainExtras.
